(** * cloud/scope/machine.go: the reconciliation scope of a LinodeMachine

    A shallow embedding of [src/cloud/scope/machine.go].  Go pointers are
    locations in an explicit heap, Go's [(value, error)] results are pairs,
    and every call to an external collaborator (control-plane client,
    Linode client factory) is recorded in a log, so that statements such as
    "before any network call" or "exactly one write" can be read off the
    final world. *)

From Stdlib Require Import ZArith.
From Stdlib.Strings Require Import Byte String.
From stdpp Require Import base option list gmap strings.

Local Open Scope string_scope.

(** ** Go values *)

(** A Go [[]byte]: [nil] and the empty non-nil slice are different values
    of length 0. *)
Variant byteslice : Type :=
  | nilSlice
  | Slice (bs : list byte).

Definition len (b : byteslice) : nat :=
  match b with
  | nilSlice => 0
  | Slice bs => length bs
  end.

Definition isNil (b : byteslice) : bool :=
  match b with
  | nilSlice => true
  | Slice _ => false
  end.

(** The conversion [string(b)]. *)
Definition string_of (b : byteslice) : string :=
  match b with
  | nilSlice => EmptyString
  | Slice bs => string_of_list_byte bs
  end.

(** A Go [error]: [None] is the nil error, [Some msg] an error whose
    [Error()] text is [msg]. *)
Definition error : Type := option string.

(** [fmt.Errorf("<prefix>: %w", err)]. *)
Definition wrapf (prefix : string) (err : string) : string :=
  prefix +:+ ": " +:+ err.

(** Heap locations; a Go pointer is [option loc], [None] being [nil]. *)
Definition loc : Type := positive.

(** [types.NamespacedName] / [client.ObjectKey], as (namespace, name). *)
Definition ObjectKey : Type := (string * string)%type.

(** ** The Kubernetes objects the scope touches *)

Module metav1.
Record ObjectMeta : Type := {
  Name : string;
  Namespace : string;
  Finalizers : list string
}.

Definition withFinalizers (f : list string) (m : ObjectMeta) : ObjectMeta :=
  {| Name := Name m; Namespace := Namespace m; Finalizers := f |}.
End metav1.

Module corev1.
Record SecretReference : Type := {
  Name : string;
  Namespace : string
}.

Record Secret : Type := {
  ObjectMeta : metav1.ObjectMeta;
  Data : gmap string byteslice
}.
End corev1.

Module clusterv1.
Record Cluster : Type := {
  ClusterMeta : metav1.ObjectMeta
}.

Record Bootstrap : Type := {
  DataSecretName : option string
}.

Record MachineSpec : Type := {
  Bootstrap_ : Bootstrap
}.

Record Machine : Type := {
  ObjectMeta : metav1.ObjectMeta;
  Spec : MachineSpec
}.
End clusterv1.

Module infrav1alpha2.
Record LinodeClusterSpec : Type := {
  CredentialsRef : option corev1.SecretReference
}.

Record LinodeCluster : Type := {
  ObjectMeta : metav1.ObjectMeta;
  Spec : LinodeClusterSpec
}.

Definition GetNamespace (o : LinodeCluster) : string :=
  metav1.Namespace (ObjectMeta o).
End infrav1alpha2.

Module infrav1alpha1.
Record LinodeMachineSpec : Type := {
  CredentialsRef : option corev1.SecretReference
}.

Record LinodeMachineStatus : Type := {
  Ready : bool
}.

Record LinodeMachine : Type := {
  ObjectMeta : metav1.ObjectMeta;
  Spec : LinodeMachineSpec;
  Status : LinodeMachineStatus
}.

Definition GetNamespace (o : LinodeMachine) : string :=
  metav1.Namespace (ObjectMeta o).
Definition GetName (o : LinodeMachine) : string :=
  metav1.Name (ObjectMeta o).
Definition GetFinalizers (o : LinodeMachine) : list string :=
  metav1.Finalizers (ObjectMeta o).
Definition SetFinalizers (f : list string) (o : LinodeMachine) : LinodeMachine :=
  {| ObjectMeta := metav1.withFinalizers f (ObjectMeta o);
     Spec := Spec o;
     Status := Status o |}.
End infrav1alpha1.

#[global] Instance SecretReference_eq_dec : EqDecision corev1.SecretReference.
Proof. solve_decision. Defined.
#[global] Instance LinodeMachineSpec_eq_dec : EqDecision infrav1alpha1.LinodeMachineSpec.
Proof. solve_decision. Defined.
#[global] Instance LinodeMachineStatus_eq_dec : EqDecision infrav1alpha1.LinodeMachineStatus.
Proof. solve_decision. Defined.

(** ** The world: heap, control plane, and the log of external calls *)

(** The in-memory objects the reconciler holds pointers to.  The scope and
    its caller alias the same [LinodeMachine]. *)
Record Heap : Type := {
  hClusters : gmap loc clusterv1.Cluster;
  hMachines : gmap loc clusterv1.Machine;
  hLinodeClusters : gmap loc infrav1alpha2.LinodeCluster;
  hLinodeMachines : gmap loc infrav1alpha1.LinodeMachine
}.

(** What a patch of a [LinodeMachine] carries: the top-level parts that
    differ from the snapshot ([None]: unchanged). *)
Record ObjectPatch : Type := {
  patchFinalizers : option (list string);
  patchSpec : option infrav1alpha1.LinodeMachineSpec;
  patchStatus : option infrav1alpha1.LinodeMachineStatus
}.

(** The objects stored in the control plane. *)
Record ApiServer : Type := {
  secrets : gmap ObjectKey corev1.Secret;
  linodeMachines : gmap ObjectKey infrav1alpha1.LinodeMachine
}.

(** One entry per call to an external collaborator. *)
Variant Call : Type :=
  | GetSecret (key : ObjectKey)
  | PatchLinodeMachine (key : ObjectKey) (p : ObjectPatch)
  | UpdateSecret (key : ObjectKey) (s : corev1.Secret)
  | NewLinodeClient (token : string).

Definition isWrite (c : Call) : bool :=
  match c with
  | PatchLinodeMachine _ _ | UpdateSecret _ _ => true
  | GetSecret _ | NewLinodeClient _ => false
  end.

Definition isNetwork (c : Call) : bool :=
  match c with
  | NewLinodeClient _ => false
  | _ => true
  end.

Record World : Type := {
  heap : Heap;
  server : ApiServer;
  calls : list Call
}.

(** Number of write requests sent to the control plane so far. *)
Definition writes (w : World) : nat := length (filter (fun c => isWrite c = true) (calls w)).

(** ** The monad of Go code: state passing, [None] is a run-time panic *)

Definition M (A : Type) : Type := World -> option (A * World).

Definition ret {A : Type} (a : A) : M A := fun w => Some (a, w).

Definition bind {A B : Type} (m : M A) (k : A -> M B) : M B :=
  fun w => match m w with
           | Some (a, w') => k a w'
           | None => None
           end.

Definition panic {A : Type} : M A := fun _ => None.

Declare Scope go_scope.
Delimit Scope go_scope with go.
Notation "'let*' x ':=' c1 'in' c2" := (bind c1 (fun x => c2))
  (at level 10, x pattern, c1 at level 200, c2 at level 200) : go_scope.
Local Open Scope go_scope.

Definition logCall (c : Call) : M unit :=
  fun w => Some (tt, {| heap := heap w; server := server w; calls := calls w ++ [c] |}).

Definition getServer : M ApiServer := fun w => Some (server w, w).

Definition putServer (s : ApiServer) : M unit :=
  fun w => Some (tt, {| heap := heap w; server := s; calls := calls w |}).

(** Dereferencing: [nil] (and, in the model, an unallocated location)
    panics. *)
Definition deref {A : Type} (objects : Heap -> gmap loc A) (p : option loc) : M A :=
  fun w => match p with
           | None => None
           | Some l => match objects (heap w) !! l with
                       | Some o => Some (o, w)
                       | None => None
                       end
           end.

Definition storeLinodeMachine (l : loc) (o : infrav1alpha1.LinodeMachine) : M unit :=
  fun w => Some (tt, {| heap := {| hClusters := hClusters (heap w);
                                   hMachines := hMachines (heap w);
                                   hLinodeClusters := hLinodeClusters (heap w);
                                   hLinodeMachines := <[l := o]> (hLinodeMachines (heap w)) |};
                        server := server w;
                        calls := calls w |}).

(** ** The control-plane client *)

(** Modelled from the spec: the control-plane client [K8sClient] (declared
    in package [clients], not under src/) is an external collaborator that
    fetches, updates and patches objects.  [Get] fails when the object does
    not exist; [Update] and [Patch] send one write request each and fail
    when their target does not exist. *)
Variant K8sClient : Type := controlPlane.

Definition emptySecret : corev1.Secret :=
  {| corev1.ObjectMeta := {| metav1.Name := ""; metav1.Namespace := ""; metav1.Finalizers := [] |};
     corev1.Data := ∅ |}.

Definition notFound (kind : string) (key : ObjectKey) : string :=
  kind +:+ " " +:+ fst key +:+ "/" +:+ snd key +:+ " not found".

Definition Client_Get (c : K8sClient) (key : ObjectKey) : M (corev1.Secret * error) :=
  let* _ := logCall (GetSecret key) in
  let* srv := getServer in
  match secrets srv !! key with
  | Some s => ret (s, None)
  | None => ret (emptySecret, Some (notFound "secrets" key))
  end.

Definition Client_Update (c : K8sClient) (key : ObjectKey) (s : corev1.Secret) : M error :=
  let* _ := logCall (UpdateSecret key s) in
  let* srv := getServer in
  match secrets srv !! key with
  | Some _ =>
      let* _ := putServer {| secrets := <[key := s]> (secrets srv);
                        linodeMachines := linodeMachines srv |} in
      ret None
  | None => ret (Some (notFound "secrets" key))
  end.

Definition applyPatch (p : ObjectPatch) (o : infrav1alpha1.LinodeMachine) : infrav1alpha1.LinodeMachine :=
  {| infrav1alpha1.ObjectMeta :=
       match patchFinalizers p with
       | Some f => metav1.withFinalizers f (infrav1alpha1.ObjectMeta o)
       | None => infrav1alpha1.ObjectMeta o
       end;
     infrav1alpha1.Spec := default (infrav1alpha1.Spec o) (patchSpec p);
     infrav1alpha1.Status := default (infrav1alpha1.Status o) (patchStatus p) |}.

Definition Client_Patch (c : K8sClient) (key : ObjectKey) (p : ObjectPatch) : M error :=
  let* _ := logCall (PatchLinodeMachine key p) in
  let* srv := getServer in
  match linodeMachines srv !! key with
  | Some o =>
      let* _ := putServer {| secrets := secrets srv;
                        linodeMachines := <[key := applyPatch p o]> (linodeMachines srv) |} in
      ret None
  | None => ret (Some (notFound "linodemachines" key))
  end.

(** ** sigs.k8s.io/controller-runtime/pkg/controller/controllerutil *)

Module controllerutil.
(** Modelled from the spec: [controllerutil.AddFinalizer] (library code,
    not under src/).  The finalizer set is an ordered sequence with set
    semantics enforced by a membership check before insertion; the
    result tells whether the sequence was updated. *)
Definition AddFinalizer (o : option loc) (finalizer : string) : M bool :=
  let* obj := deref hLinodeMachines o in
  if decide (finalizer ∈ infrav1alpha1.GetFinalizers obj) then ret false
  else
    match o with
    | Some l =>
        let* _ := storeLinodeMachine l
               (infrav1alpha1.SetFinalizers (infrav1alpha1.GetFinalizers obj ++ [finalizer]) obj) in
        ret true
    | None => panic
    end.

(** The same on a fetched [Secret] value. *)
Definition AddFinalizerSecret (s : corev1.Secret) (finalizer : string) : corev1.Secret :=
  if decide (finalizer ∈ metav1.Finalizers (corev1.ObjectMeta s)) then s
  else {| corev1.ObjectMeta :=
            metav1.withFinalizers (metav1.Finalizers (corev1.ObjectMeta s) ++ [finalizer])
                                  (corev1.ObjectMeta s);
          corev1.Data := corev1.Data s |}.

(** Modelled from the spec: [controllerutil.RemoveFinalizer] on a fetched
    [Secret]: removal by exact match. *)
Definition RemoveFinalizerSecret (s : corev1.Secret) (finalizer : string) : corev1.Secret :=
  {| corev1.ObjectMeta :=
       metav1.withFinalizers
         (filter (fun f => f ≠ finalizer) (metav1.Finalizers (corev1.ObjectMeta s)))
         (corev1.ObjectMeta s);
     corev1.Data := corev1.Data s |}.
End controllerutil.

(** ** sigs.k8s.io/cluster-api/util/patch *)

Module patch.
(** Modelled from the spec: the persistence handle [patch.Helper]
    (library code, not under src/) captures the owner object's state at
    construction time; [Patch] computes the difference between the
    object's current in-memory state and that snapshot and, when there
    is one, applies it as one partial update to the control plane.
    The helper is kept as a value.  Whether a write that went through
    moves the snapshot forward is not decided by machine.go, and no
    statement below rests on what a later [Patch] sends after such a
    write. *)
Record Helper : Type := {
  client : K8sClient;
  before : infrav1alpha1.LinodeMachine
}.

Definition NewHelper (obj : option loc) (c : K8sClient) : M (option Helper * error) :=
  match obj with
  | None => ret (None, Some "expected non-nil object")
  | Some _ =>
      let* o := deref hLinodeMachines obj in
      ret (Some {| client := c; before := o |}, None)
  end.

(** Field-level comparison of the parts the system mutates. *)
Definition diff (old new : infrav1alpha1.LinodeMachine) : ObjectPatch :=
  {| patchFinalizers :=
       if decide (infrav1alpha1.GetFinalizers old = infrav1alpha1.GetFinalizers new)
       then None else Some (infrav1alpha1.GetFinalizers new);
     patchSpec :=
       if decide (infrav1alpha1.Spec old = infrav1alpha1.Spec new)
       then None else Some (infrav1alpha1.Spec new);
     patchStatus :=
       if decide (infrav1alpha1.Status old = infrav1alpha1.Status new)
       then None else Some (infrav1alpha1.Status new) |}.

Definition isEmpty (p : ObjectPatch) : bool :=
  match patchFinalizers p, patchSpec p, patchStatus p with
  | None, None, None => true
  | _, _, _ => false
  end.

Definition Patch (h : option Helper) (obj : option loc) : M error :=
  match h with
  | None => panic
  | Some h =>
      match obj with
      | None => ret (Some "expected non-nil object")
      | Some _ =>
          let* after := deref hLinodeMachines obj in
          let p := diff (before h) after in
          if isEmpty p then ret None
          else Client_Patch (client h)
                 (infrav1alpha1.GetNamespace after, infrav1alpha1.GetName after) p
      end
  end.
End patch.

(** ** Package clients: the Linode API client *)

Module clients.
Variant ClientOption : Type :=
  | WithRetryCount (n : Z).

Record LinodeClient : Type := {
  token : string;
  timeout : Z;
  options : list ClientOption
}.
End clients.

(** ** Package scope: the structs of machine.go *)

Module Params.
Record MachineScopeParams : Type := {
  Client : K8sClient;
  Cluster : option loc;
  Machine : option loc;
  LinodeCluster : option loc;
  LinodeMachine : option loc
}.
End Params.

Module Scope.
Record MachineScope : Type := {
  Client : K8sClient;
  PatchHelper : option patch.Helper;
  Cluster : option loc;
  Machine : option loc;
  LinodeClient : option clients.LinodeClient;
  LinodeDomainsClient : option clients.LinodeClient;
  LinodeCluster : option loc;
  LinodeMachine : option loc
}.
End Scope.

Section MachineScope.

Set Default Proof Using "Type".

(** [infrav1alpha2.MachineFinalizer], a fixed string constant declared in
    api/v1alpha2 (not under src/). *)
Variable MachineFinalizer : string.

(** [defaultClientTimeout], a fixed constant of package scope (not under
    src/), as a [time.Duration]. *)
Variable defaultClientTimeout : Z.

(** Which tokens the Linode client can be initialised with. *)
Variable validToken : string -> bool.

(** The format of a credential-protection finalizer, as a function of the
    referencing object's kind, namespace and name. *)
Variable finalizerFormat : string -> string -> string -> string.

(** *** Helpers of package scope that are not under src/ *)

(** Modelled from the spec: the namespace default rule.  When a
    credential reference omits its namespace, the namespace of the
    referencing object is used. *)
Definition secretKey (credentialsRef : corev1.SecretReference) (defaultNamespace : string)
  : ObjectKey :=
  (if decide (corev1.Namespace credentialsRef = "") then defaultNamespace
   else corev1.Namespace credentialsRef,
   corev1.Name credentialsRef).

(** Modelled from the spec: [getCredentialDataFromRef] reads one key out
    of the referenced secret and fails if the secret or the key is
    missing. *)
Definition getCredentialDataFromRef (crClient : K8sClient)
    (credentialsRef : corev1.SecretReference) (defaultNamespace key : string)
  : M (byteslice * error) :=
  let* (secret, err) := Client_Get crClient (secretKey credentialsRef defaultNamespace) in
  match err with
  | Some e => ret (nilSlice, Some (wrapf "get credentials secret" e))
  | None =>
      match corev1.Data secret !! key with
      | Some rawData => ret (rawData, None)
      | None => ret (nilSlice, Some ("no " +:+ key +:+ " key in credentials secret"))
      end
  end.

(** Modelled from the spec: [CreateLinodeClient] builds a client from a
    token, a request timeout and options; construction fails only if the
    client cannot be initialised with the given token. *)
Definition CreateLinodeClient (apiKey : string) (timeout : Z) (opts : list clients.ClientOption)
  : M (option clients.LinodeClient * error) :=
  let* _ := logCall (NewLinodeClient apiKey) in
  if validToken apiKey
  then ret (Some {| clients.token := apiKey; clients.timeout := timeout; clients.options := opts |}, None)
  else ret (None, Some "invalid Linode API key").

(** Modelled from the spec: [toFinalizer] derives the credential-protection
    finalizer from the referencing object's kind, namespace and name. *)
Definition toFinalizer (obj : infrav1alpha1.LinodeMachine) : string :=
  finalizerFormat "LinodeMachine" (infrav1alpha1.GetNamespace obj) (infrav1alpha1.GetName obj).

(** Modelled from the spec: [addCredentialsFinalizer] registers the
    finalizer against the referenced secret. *)
Definition addCredentialsFinalizer (crClient : K8sClient)
    (credentialsRef : corev1.SecretReference) (defaultNamespace finalizer : string)
  : M error :=
  let* (secret, err) := Client_Get crClient (secretKey credentialsRef defaultNamespace) in
  match err with
  | Some e => ret (Some (wrapf "get credentials secret" e))
  | None =>
      Client_Update crClient (secretKey credentialsRef defaultNamespace)
        (controllerutil.AddFinalizerSecret secret finalizer)
  end.

(** Modelled from the spec: [removeCredentialsFinalizer] removes the
    finalizer, by exact match, from the referenced secret. *)
Definition removeCredentialsFinalizer (crClient : K8sClient)
    (credentialsRef : corev1.SecretReference) (defaultNamespace finalizer : string)
  : M error :=
  let* (secret, err) := Client_Get crClient (secretKey credentialsRef defaultNamespace) in
  match err with
  | Some e => ret (Some (wrapf "get credentials secret" e))
  | None =>
      Client_Update crClient (secretKey credentialsRef defaultNamespace)
        (controllerutil.RemoveFinalizerSecret secret finalizer)
  end.

(** *** machine.go *)

Definition validateMachineScopeParams (params : Params.MachineScopeParams) : error :=
  if decide (Params.Cluster params = None)
  then Some "cluster is required when creating a MachineScope"
  else if decide (Params.Machine params = None)
  then Some "machine is required when creating a MachineScope"
  else if decide (Params.LinodeCluster params = None)
  then Some "linodeCluster is required when creating a MachineScope"
  else if decide (Params.LinodeMachine params = None)
  then Some "linodeMachine is required when creating a MachineScope"
  else None.

Definition NewMachineScope (apiKey dnsKey : string) (params : Params.MachineScopeParams)
  : M (option Scope.MachineScope * error) :=
  match validateMachineScopeParams params with
  | Some err => ret (None, Some err)
  | None =>
      (* switch: 1. LinodeMachine, 2. owner LinodeCluster, 3. controller *)
      let* linodeMachine := deref hLinodeMachines (Params.LinodeMachine params) in
      let* (credentialRef, defaultNamespace) :=
        match infrav1alpha1.CredentialsRef (infrav1alpha1.Spec linodeMachine) with
        | Some ref => ret (Some ref, infrav1alpha1.GetNamespace linodeMachine)
        | None =>
            let* linodeCluster := deref hLinodeClusters (Params.LinodeCluster params) in
            match infrav1alpha2.CredentialsRef (infrav1alpha2.Spec linodeCluster) with
            | Some ref => ret (Some ref, infrav1alpha2.GetNamespace linodeCluster)
            | None => ret (None, "")
            end
        end in
      (* if credentialRef != nil *)
      let* keys :=
        match credentialRef with
        | Some ref =>
            let* (apiToken, err) :=
              getCredentialDataFromRef (Params.Client params) ref defaultNamespace "apiToken" in
            match err with
            | Some e => ret (inl (wrapf "credentials from secret ref" e))
            | None =>
                let* (dnsToken, err) :=
                  getCredentialDataFromRef (Params.Client params) ref defaultNamespace "dnsToken" in
                let dnsToken :=
                  if bool_decide (err ≠ None) || bool_decide (len dnsToken = 0)
                  then apiToken else dnsToken in
                ret (inr (string_of apiToken, string_of dnsToken))
            end
        | None => ret (inr (apiKey, dnsKey))
        end in
      match keys with
      | inl e => ret (None, Some e)
      | inr (apiKey, dnsKey) =>
          let* (linodeClient, err) :=
            CreateLinodeClient apiKey defaultClientTimeout [clients.WithRetryCount 0] in
          match err with
          | Some e => ret (None, Some (wrapf "failed to create linode client" e))
          | None =>
              let* (linodeDomainsClient, err) :=
                CreateLinodeClient dnsKey defaultClientTimeout [clients.WithRetryCount 0] in
              match err with
              | Some e => ret (None, Some (wrapf "failed to create linode client" e))
              | None =>
                  let* (helper, err) :=
                    patch.NewHelper (Params.LinodeMachine params) (Params.Client params) in
                  match err with
                  | Some e => ret (None, Some (wrapf "failed to init patch helper" e))
                  | None =>
                      ret (Some {| Scope.Client := Params.Client params;
                                   Scope.PatchHelper := helper;
                                   Scope.Cluster := Params.Cluster params;
                                   Scope.Machine := Params.Machine params;
                                   Scope.LinodeClient := linodeClient;
                                   Scope.LinodeDomainsClient := linodeDomainsClient;
                                   Scope.LinodeCluster := Params.LinodeCluster params;
                                   Scope.LinodeMachine := Params.LinodeMachine params |},
                           None)
                  end
              end
          end
      end
  end.

(** PatchObject persists the machine configuration and status. *)
Definition PatchObject (s : Scope.MachineScope) : M error :=
  patch.Patch (Scope.PatchHelper s) (Scope.LinodeMachine s).

(** Close closes the current scope persisting the machine configuration
    and status. *)
Definition Close (s : Scope.MachineScope) : M error :=
  PatchObject s.

(** AddFinalizer adds a finalizer if not present and immediately patches
    the object. *)
Definition AddFinalizer (s : Scope.MachineScope) : M error :=
  let* updated := controllerutil.AddFinalizer (Scope.LinodeMachine s) MachineFinalizer in
  if updated then Close s else ret None.

Definition bootstrapError (what : string) (linodeMachine : infrav1alpha1.LinodeMachine)
  : string :=
  what +:+ " for LinodeMachine "
       +:+ metav1.Namespace (infrav1alpha1.ObjectMeta linodeMachine) +:+ "/"
       +:+ metav1.Name (infrav1alpha1.ObjectMeta linodeMachine).

(** GetBootstrapData returns the bootstrap data from the secret in the
    Machine's bootstrap.dataSecretName. *)
Definition GetBootstrapData (m : Scope.MachineScope) : M (byteslice * error) :=
  let* machine := deref hMachines (Scope.Machine m) in
  match clusterv1.DataSecretName (clusterv1.Bootstrap_ (clusterv1.Spec machine)) with
  | None =>
      let* linodeMachine := deref hLinodeMachines (Scope.LinodeMachine m) in
      ret (Slice [], Some (bootstrapError "bootstrap data secret is nil" linodeMachine))
  | Some dataSecretName =>
      let* linodeMachine := deref hLinodeMachines (Scope.LinodeMachine m) in
      let key := (metav1.Namespace (infrav1alpha1.ObjectMeta linodeMachine), dataSecretName) in
      let* (secret, err) := Client_Get (Scope.Client m) key in
      match err with
      | Some _ =>
          ret (Slice [],
               Some (bootstrapError "failed to retrieve bootstrap data secret" linodeMachine))
      | None =>
          match corev1.Data secret !! "value" with
          | None =>
              ret (Slice [],
                   Some (bootstrapError "bootstrap data secret value key is missing"
                                        linodeMachine))
          | Some value => ret (value, None)
          end
      end
  end.

Definition AddCredentialsRefFinalizer (s : Scope.MachineScope) : M error :=
  let* linodeMachine := deref hLinodeMachines (Scope.LinodeMachine s) in
  match infrav1alpha1.CredentialsRef (infrav1alpha1.Spec linodeMachine) with
  | None => ret None
  | Some credentialsRef =>
      addCredentialsFinalizer (Scope.Client s) credentialsRef
        (infrav1alpha1.GetNamespace linodeMachine) (toFinalizer linodeMachine)
  end.

Definition RemoveCredentialsRefFinalizer (s : Scope.MachineScope) : M error :=
  let* linodeMachine := deref hLinodeMachines (Scope.LinodeMachine s) in
  match infrav1alpha1.CredentialsRef (infrav1alpha1.Spec linodeMachine) with
  | None => ret None
  | Some credentialsRef =>
      removeCredentialsFinalizer (Scope.Client s) credentialsRef
        (infrav1alpha1.GetNamespace linodeMachine) (toFinalizer linodeMachine)
  end.

(** *** Running the primitives *)

(** The world after some more external calls, everything else as it was. *)
Definition addCalls (cs : list Call) (w : World) : World :=
  {| heap := heap w; server := server w; calls := calls w ++ cs |}.

(** What a pointer refers to in a world, if anything. *)
Definition pointee {A : Type} (objects : Heap -> gmap loc A) (w : World) (p : option loc)
  : option A :=
  match p with
  | Some l => objects (heap w) !! l
  | None => None
  end.

Lemma addCalls_nil w : addCalls [] w = w.
Proof. destruct w; unfold addCalls; simpl. by rewrite app_nil_r. Qed.

Lemma addCalls_addCalls cs1 cs2 w : addCalls cs2 (addCalls cs1 w) = addCalls (cs1 ++ cs2) w.
Proof. unfold addCalls; simpl. by rewrite app_assoc. Qed.

Lemma bind_run {A B : Type} (m : M A) (k : A -> M B) w a w' :
  m w = Some (a, w') -> bind m k w = k a w'.
Proof. intros H. unfold bind. by rewrite H. Qed.

Lemma bind_result {A B : Type} (m : M A) (k : A -> M B) w r :
  m w = Some r -> bind m k w = k r.1 r.2.
Proof. intros H. unfold bind. rewrite H. by destruct r. Qed.

Lemma bind_panic {A B : Type} (m : M A) (k : A -> M B) w :
  m w = None -> bind m k w = None.
Proof. intros H. unfold bind. by rewrite H. Qed.

Lemma deref_run {A : Type} (objects : Heap -> gmap loc A) p w o :
  pointee objects w p = Some o -> deref objects p w = Some (o, w).
Proof. destruct p as [l|]; simpl; [|done]. intros H. by rewrite H. Qed.

Lemma deref_inv {A : Type} (objects : Heap -> gmap loc A) p w o w' :
  deref objects p w = Some (o, w') -> pointee objects w p = Some o /\ w' = w.
Proof.
  destruct p as [l|]; simpl; [|done].
  destruct (objects (heap w) !! l); [|done]. by intros [= -> ->].
Qed.

Lemma pointee_addCalls {A : Type} (objects : Heap -> gmap loc A) cs w p :
  pointee objects (addCalls cs w) p = pointee objects w p.
Proof. by destruct p. Qed.

Lemma logCall_run c w : logCall c w = Some (tt, addCalls [c] w).
Proof. done. Qed.

Definition getResult (srv : ApiServer) (key : ObjectKey) : corev1.Secret * error :=
  match secrets srv !! key with
  | Some s => (s, None)
  | None => (emptySecret, Some (notFound "secrets" key))
  end.

Lemma Client_Get_run c key w :
  Client_Get c key w = Some (getResult (server w) key, addCalls [GetSecret key] w).
Proof.
  unfold Client_Get, getResult, bind, logCall, getServer, ret; simpl.
  by destruct (secrets (server w) !! key).
Qed.

Definition credentialData (srv : ApiServer) (key : ObjectKey) (field : string)
  : byteslice * error :=
  match secrets srv !! key with
  | None => (nilSlice, Some (wrapf "get credentials secret" (notFound "secrets" key)))
  | Some secret =>
      match corev1.Data secret !! field with
      | Some rawData => (rawData, None)
      | None => (nilSlice, Some ("no " +:+ field +:+ " key in credentials secret"))
      end
  end.

Lemma getCredentialDataFromRef_run c ref ns field w :
  getCredentialDataFromRef c ref ns field w
  = Some (credentialData (server w) (secretKey ref ns) field,
          addCalls [GetSecret (secretKey ref ns)] w).
Proof.
  unfold getCredentialDataFromRef, credentialData.
  rewrite (bind_run _ _ _ _ _ (Client_Get_run c _ w)).
  unfold getResult. simpl.
  destruct (secrets (server w) !! secretKey ref ns) as [secret|]; [|done].
  by destruct (corev1.Data secret !! field).
Qed.

Lemma NewHelper_run obj c w o :
  pointee hLinodeMachines w obj = Some o ->
  patch.NewHelper obj c w = Some ((Some {| patch.client := c; patch.before := o |}, None), w).
Proof.
  intros H. unfold patch.NewHelper. destruct obj as [l|]; [|done].
  by rewrite (bind_run _ _ _ _ _ (deref_run _ _ _ _ H)).
Qed.

Lemma bind_ret {A B : Type} (a : A) (k : A -> M B) w : bind (ret a) k w = k a w.
Proof. done. Qed.

Lemma bind_bind {A B C : Type} (m : M A) (f : A -> M B) (k : B -> M C) w :
  bind (bind m f) k w = bind m (fun a => bind (f a) k) w.
Proof. unfold bind. by destruct (m w) as [[a w']|]. Qed.

Lemma bind_getCredentialDataFromRef {B : Type} c ref ns field (k : _ -> M B) w :
  bind (getCredentialDataFromRef c ref ns field) k w
  = k (credentialData (server w) (secretKey ref ns) field)
      (addCalls [GetSecret (secretKey ref ns)] w).
Proof. apply bind_run, getCredentialDataFromRef_run. Qed.

Lemma bind_NewHelper {B : Type} obj c (k : _ -> M B) w o :
  pointee hLinodeMachines w obj = Some o ->
  bind (patch.NewHelper obj c) k w
  = k (Some {| patch.client := c; patch.before := o |}, None) w.
Proof. intros H. by apply bind_run, NewHelper_run. Qed.

Definition newClient (apiKey : string) : option clients.LinodeClient * error :=
  if validToken apiKey
  then (Some {| clients.token := apiKey;
                clients.timeout := defaultClientTimeout;
                clients.options := [clients.WithRetryCount 0] |}, None)
  else (None, Some "invalid Linode API key").

Lemma CreateLinodeClient_run apiKey w :
  CreateLinodeClient apiKey defaultClientTimeout [clients.WithRetryCount 0] w
  = Some (newClient apiKey, addCalls [NewLinodeClient apiKey] w).
Proof.
  unfold CreateLinodeClient, newClient, bind, logCall, ret; simpl.
  by destruct (validToken apiKey).
Qed.

Lemma bind_CreateLinodeClient {B : Type} apiKey (k : _ -> M B) w :
  bind (CreateLinodeClient apiKey defaultClientTimeout [clients.WithRetryCount 0]) k w
  = k (newClient apiKey) (addCalls [NewLinodeClient apiKey] w).
Proof. apply bind_run, CreateLinodeClient_run. Qed.

(** *** The credential resolver and the factories, as the specification
    states them *)

(** A credential reference together with the namespace of the object
    that carries it. *)
Definition Override : Type := (corev1.SecretReference * string)%type.

Definition ownerOverride (linodeMachine : infrav1alpha1.LinodeMachine) : option Override :=
  match infrav1alpha1.CredentialsRef (infrav1alpha1.Spec linodeMachine) with
  | Some ref => Some (ref, infrav1alpha1.GetNamespace linodeMachine)
  | None => None
  end.

Definition parentOverride (linodeCluster : infrav1alpha2.LinodeCluster) : option Override :=
  match infrav1alpha2.CredentialsRef (infrav1alpha2.Spec linodeCluster) with
  | Some ref => Some (ref, infrav1alpha2.GetNamespace linodeCluster)
  | None => None
  end.

Variant Resolved : Type :=
  | CredentialLookupError (err : string)
  | ResolvedCredentials (primary secondary : string).

(** Reading the two keys of a selected reference: the primary key must be
    there, the secondary one falls back to the primary. *)
Definition fromSecret (srv : ApiServer) (o : Override) : Resolved :=
  match credentialData srv (secretKey o.1 o.2) "apiToken" with
  | (_, Some e) => CredentialLookupError e
  | (X, None) =>
      match credentialData srv (secretKey o.1 o.2) "dnsToken" with
      | (Y, None) =>
          if decide (len Y = 0)
          then ResolvedCredentials (string_of X) (string_of X)
          else ResolvedCredentials (string_of X) (string_of Y)
      | (_, Some _) => ResolvedCredentials (string_of X) (string_of X)
      end
  end.

(** Precedence, first match wins: owner override, parent override,
    controller default ([None]: no reference is selected). *)
Definition precedence (owner parent : option Override) : option Override :=
  match owner, parent with
  | Some o, _ => Some o
  | None, Some p => Some p
  | None, None => None
  end.

Definition resolve (srv : ApiServer) (selected : option Override)
    (apiKey dnsKey : string) : Resolved :=
  match selected with
  | Some o => fromSecret srv o
  | None => ResolvedCredentials apiKey dnsKey
  end.

(** The secret reads resolution performs. *)
Definition resolveCalls (srv : ApiServer) (selected : option Override) : list Call :=
  match selected with
  | None => []
  | Some o =>
      match credentialData srv (secretKey o.1 o.2) "apiToken" with
      | (_, Some _) => [GetSecret (secretKey o.1 o.2)]
      | (_, None) => [GetSecret (secretKey o.1 o.2); GetSecret (secretKey o.1 o.2)]
      end
  end.

(** The client constructions: the secondary client is only built once
    the primary one exists. *)
Definition factoryCalls (r : Resolved) : list Call :=
  match r with
  | CredentialLookupError _ => []
  | ResolvedCredentials primary secondary =>
      NewLinodeClient primary
        :: (if validToken primary then [NewLinodeClient secondary] else [])
  end.

(** What the scope factory hands back for resolved credentials. *)
Definition assemble (params : Params.MachineScopeParams)
    (linodeMachine : infrav1alpha1.LinodeMachine) (r : Resolved)
  : option Scope.MachineScope * error :=
  match r with
  | CredentialLookupError e => (None, Some (wrapf "credentials from secret ref" e))
  | ResolvedCredentials primary secondary =>
      if validToken primary && validToken secondary
      then (Some {| Scope.Client := Params.Client params;
                    Scope.PatchHelper :=
                      Some {| patch.client := Params.Client params;
                              patch.before := linodeMachine |};
                    Scope.Cluster := Params.Cluster params;
                    Scope.Machine := Params.Machine params;
                    Scope.LinodeClient :=
                      Some {| clients.token := primary;
                              clients.timeout := defaultClientTimeout;
                              clients.options := [clients.WithRetryCount 0] |};
                    Scope.LinodeDomainsClient :=
                      Some {| clients.token := secondary;
                              clients.timeout := defaultClientTimeout;
                              clients.options := [clients.WithRetryCount 0] |};
                    Scope.LinodeCluster := Params.LinodeCluster params;
                    Scope.LinodeMachine := Params.LinodeMachine params |},
            None)
      else (None, Some (wrapf "failed to create linode client" "invalid Linode API key"))
  end.

(** All four references are present and point to objects. *)
Record paramsOk (w : World) (params : Params.MachineScopeParams)
    (linodeMachine : infrav1alpha1.LinodeMachine)
    (linodeCluster : infrav1alpha2.LinodeCluster) : Prop := {
  ok_cluster : is_Some (pointee hClusters w (Params.Cluster params));
  ok_machine : is_Some (pointee hMachines w (Params.Machine params));
  ok_linodeCluster :
    pointee hLinodeClusters w (Params.LinodeCluster params) = Some linodeCluster;
  ok_linodeMachine :
    pointee hLinodeMachines w (Params.LinodeMachine params) = Some linodeMachine
}.

Lemma validate_ok w params linodeMachine linodeCluster :
  paramsOk w params linodeMachine linodeCluster ->
  validateMachineScopeParams params = None.
Proof.
  intros [[? Hc] [? Hm] Hlc Hlm]. unfold validateMachineScopeParams.
  destruct params as [c [?|] [?|] [?|] [?|]]; simpl in *; done.
Qed.

(** Runs the construction of the two clients and of the patch helper. *)
Ltac build_clients Hlm :=
  let Hv := fresh "Hv" in
  rewrite ?bind_ret, ?addCalls_addCalls; simpl;
  rewrite bind_CreateLinodeClient, ?addCalls_addCalls; unfold newClient; simpl;
  match goal with |- context [validToken ?t] => destruct (validToken t) eqn:Hv end;
  simpl; [|done];
  rewrite bind_CreateLinodeClient, ?addCalls_addCalls; unfold newClient;
  rewrite ?Hv; simpl;
  try (match goal with |- context [validToken ?t] => destruct (validToken t) end;
       simpl; [|done]);
  erewrite bind_NewHelper by (rewrite pointee_addCalls; exact Hlm);
  done.

(** With the chosen keys in hand, the rest of [NewMachineScope] builds
    the two clients and the patch helper. *)
Lemma NewMachineScope_run apiKey dnsKey params w linodeMachine linodeCluster :
  paramsOk w params linodeMachine linodeCluster ->
  let selected := precedence (ownerOverride linodeMachine) (parentOverride linodeCluster) in
  let r := resolve (server w) selected apiKey dnsKey in
  NewMachineScope apiKey dnsKey params w
  = Some (assemble params linodeMachine r,
          addCalls (resolveCalls (server w) selected ++ factoryCalls r) w).
Proof.
  intros Hok selected r. subst r selected.
  unfold NewMachineScope. rewrite (validate_ok _ _ _ _ Hok).
  destruct Hok as [_ _ Hlc Hlm].
  rewrite (bind_run _ _ _ _ _ (deref_run _ _ _ _ Hlm)).
  unfold ownerOverride, parentOverride, precedence, resolve, resolveCalls, fromSecret.
  destruct (infrav1alpha1.CredentialsRef (infrav1alpha1.Spec linodeMachine)) as [ref|]; simpl.
  - rewrite bind_ret; simpl. rewrite bind_bind, bind_getCredentialDataFromRef.
    destruct (credentialData _ _ "apiToken") as [X [e|]]; simpl; [done|].
    rewrite bind_bind, bind_getCredentialDataFromRef; simpl.
    destruct (credentialData _ _ "dnsToken") as [Y [e|]]; simpl.
    + build_clients Hlm.
    + destruct (decide (len Y = 0)) as [H0|H0].
      * rewrite (bool_decide_eq_true_2 _ H0). build_clients Hlm.
      * rewrite (bool_decide_eq_false_2 _ H0). build_clients Hlm.
  - rewrite bind_bind, (bind_run _ _ _ _ _ (deref_run _ _ _ _ Hlc)).
    destruct (infrav1alpha2.CredentialsRef (infrav1alpha2.Spec linodeCluster)) as [ref|]; simpl.
    + rewrite bind_ret; simpl. rewrite bind_bind, bind_getCredentialDataFromRef.
      destruct (credentialData _ _ "apiToken") as [X [e|]]; simpl; [done|].
      rewrite bind_bind, bind_getCredentialDataFromRef; simpl.
      destruct (credentialData _ _ "dnsToken") as [Y [e|]]; simpl.
      * build_clients Hlm.
      * destruct (decide (len Y = 0)) as [H0|H0].
        -- rewrite (bool_decide_eq_true_2 _ H0). build_clients Hlm.
        -- rewrite (bool_decide_eq_false_2 _ H0). build_clients Hlm.
    + rewrite !bind_ret; simpl. build_clients Hlm.
Qed.

(** *** Computations that only read *)

(** [readonly m Q]: whenever [m] returns, the heap and the control plane
    are as before and the result satisfies [Q]. *)
Definition readonly {A : Type} (m : M A) (Q : A -> Prop) : Prop :=
  forall w a w', m w = Some (a, w') ->
    (heap w' = heap w /\ server w' = server w) /\ Q a.

Lemma readonly_ret {A : Type} (a : A) (Q : A -> Prop) : Q a -> readonly (ret a) Q.
Proof. intros HQ w a' w' [= <- <-]. done. Qed.

Lemma readonly_bind {A B : Type} (m : M A) (k : A -> M B) (P : A -> Prop) (Q : B -> Prop) :
  readonly m P -> (forall a, P a -> readonly (k a) Q) -> readonly (bind m k) Q.
Proof.
  intros Hm Hk w b w'. unfold bind.
  destruct (m w) as [[a w1]|] eqn:E; [|done].
  intros Hb. destruct (Hm _ _ _ E) as [[Hh Hs] HP].
  destruct (Hk a HP _ _ _ Hb) as [[Hh' Hs'] HQ].
  split; [split; congruence | done].
Qed.

Lemma readonly_deref {A : Type} (objects : Heap -> gmap loc A) p :
  readonly (deref objects p) (fun _ => True).
Proof. intros w a w' H. apply deref_inv in H as [_ ->]. done. Qed.

Lemma readonly_getCredentialDataFromRef c ref ns field :
  readonly (getCredentialDataFromRef c ref ns field) (fun _ => True).
Proof. intros w a w'. rewrite getCredentialDataFromRef_run. by intros [= <- <-]. Qed.

Lemma readonly_CreateLinodeClient apiKey :
  readonly (CreateLinodeClient apiKey defaultClientTimeout [clients.WithRetryCount 0])
           (fun _ => True).
Proof. intros w a w'. rewrite CreateLinodeClient_run. by intros [= <- <-]. Qed.

Lemma readonly_NewHelper obj c : readonly (patch.NewHelper obj c) (fun _ => True).
Proof.
  unfold patch.NewHelper. destruct obj as [l|].
  - apply (readonly_bind _ _ (fun _ => True)); [apply readonly_deref|].
    intros o _. by apply readonly_ret.
  - by apply readonly_ret.
Qed.

Ltac readonly_step :=
  lazymatch goal with
  | |- readonly (ret _) _ =>
      apply readonly_ret; first [exact I | simpl; split; intros ?; congruence]
  | |- readonly (bind _ _) _ =>
      apply (readonly_bind _ _ (fun _ => True)); [|intros ? _]
  | |- readonly (deref _ _) _ => apply readonly_deref
  | |- readonly (getCredentialDataFromRef _ _ _ _) _ =>
      apply readonly_getCredentialDataFromRef
  | |- readonly (CreateLinodeClient _ _ _) _ => apply readonly_CreateLinodeClient
  | |- readonly (patch.NewHelper _ _) _ => apply readonly_NewHelper
  | |- readonly (match ?x with _ => _ end) _ => destruct x
  end.

(** Whatever [NewMachineScope] returns, it has left the heap and the
    control plane alone, and it returns a scope exactly when it returns
    no error. *)
Lemma NewMachineScope_readonly apiKey dnsKey params :
  readonly (NewMachineScope apiKey dnsKey params) (fun r => r.1 = None <-> r.2 <> None).
Proof. unfold NewMachineScope. repeat readonly_step. Qed.

(** *** Construction: credential precedence (C1, C2) *)

(** C1.  For every combination of owner ([LinodeMachine]) and parent
    ([LinodeCluster]) credential override, [NewMachineScope] resolves the
    owner's reference (against the owner's namespace) when present,
    otherwise the parent's (against the parent's namespace) when present,
    otherwise it uses the caller's [apiKey] and [dnsKey]; the outcome is a
    function of that one selection. *)
Theorem NewMachineScope_credential_precedence
    apiKey dnsKey params w linodeMachine linodeCluster :
  paramsOk w params linodeMachine linodeCluster ->
  let selected :=
    match infrav1alpha1.CredentialsRef (infrav1alpha1.Spec linodeMachine),
          infrav1alpha2.CredentialsRef (infrav1alpha2.Spec linodeCluster) with
    | Some ref, _ => Some (ref, infrav1alpha1.GetNamespace linodeMachine)
    | None, Some ref => Some (ref, infrav1alpha2.GetNamespace linodeCluster)
    | None, None => None
    end in
  let r :=
    match selected with
    | Some o => fromSecret (server w) o
    | None => ResolvedCredentials apiKey dnsKey
    end in
  NewMachineScope apiKey dnsKey params w
  = Some (assemble params linodeMachine r,
          addCalls (resolveCalls (server w) selected ++ factoryCalls r) w).
Proof.
  intros Hok selected r.
  rewrite (NewMachineScope_run apiKey dnsKey _ _ _ _ Hok).
  subst r selected. unfold precedence, resolve, ownerOverride, parentOverride.
  destruct (infrav1alpha1.CredentialsRef (infrav1alpha1.Spec linodeMachine)),
    (infrav1alpha2.CredentialsRef (infrav1alpha2.Spec linodeCluster)); done.
Qed.

(** The reference [NewMachineScope] selects. *)
Definition selectedOverride (linodeMachine : infrav1alpha1.LinodeMachine)
    (linodeCluster : infrav1alpha2.LinodeCluster) : option Override :=
  precedence (ownerOverride linodeMachine) (parentOverride linodeCluster).

(** C2.  When a reference is selected and its secret holds [apiToken = X]:
    if [dnsToken] is absent or empty, both clients are built from [X] and
    no error is raised for the missing key; if [dnsToken] is a non-empty
    [Y], the domains client is built from [Y]. *)
Theorem NewMachineScope_dnsToken_fallback
    apiKey dnsKey params w linodeMachine linodeCluster ref ns secret X :
  paramsOk w params linodeMachine linodeCluster ->
  selectedOverride linodeMachine linodeCluster = Some (ref, ns) ->
  secrets (server w) !! secretKey ref ns = Some secret ->
  corev1.Data secret !! "apiToken" = Some X ->
  let outcome (secondary : byteslice) :=
    let r := ResolvedCredentials (string_of X) (string_of secondary) in
    Some (assemble params linodeMachine r,
          addCalls ([GetSecret (secretKey ref ns); GetSecret (secretKey ref ns)]
                    ++ factoryCalls r) w) in
  ((corev1.Data secret !! "dnsToken" = None
    \/ exists Y, corev1.Data secret !! "dnsToken" = Some Y /\ len Y = 0) ->
   NewMachineScope apiKey dnsKey params w = outcome X)
  /\ (forall Y, corev1.Data secret !! "dnsToken" = Some Y -> len Y <> 0 ->
      NewMachineScope apiKey dnsKey params w = outcome Y).
Proof.
  intros Hok Hsel Hsecret HX outcome. subst outcome.
  rewrite (NewMachineScope_run apiKey dnsKey _ _ _ _ Hok).
  unfold selectedOverride in Hsel. rewrite Hsel.
  unfold resolve, resolveCalls, fromSecret, credentialData. simpl.
  rewrite Hsecret, HX. simpl.
  split.
  - intros [HY | (Y & HY & H0)]; rewrite HY; simpl; [done|].
    by destruct (decide (len Y = 0)).
  - intros Y HY H0. rewrite HY. simpl. by destruct (decide (len Y = 0)).
Qed.

(** *** Construction: validation (C3) and frame (C8) *)

(** [absent params field]: the required reference called [field] in the
    error messages is nil. *)
Definition absent (params : Params.MachineScopeParams) (field : string) : Prop :=
  (field = "cluster" /\ Params.Cluster params = None)
  \/ (field = "machine" /\ Params.Machine params = None)
  \/ (field = "linodeCluster" /\ Params.LinodeCluster params = None)
  \/ (field = "linodeMachine" /\ Params.LinodeMachine params = None).

(** C3.  If any of Cluster, Machine, LinodeCluster, LinodeMachine is nil,
    [NewMachineScope] returns a nil scope and an error naming an absent
    field, without a single external call (no secret read, no client
    built); and on every return the scope is nil exactly when the error
    is not. *)
Theorem NewMachineScope_missing_field apiKey dnsKey params w :
  Params.Cluster params = None \/ Params.Machine params = None
  \/ Params.LinodeCluster params = None \/ Params.LinodeMachine params = None ->
  (exists field,
      absent params field
      /\ NewMachineScope apiKey dnsKey params w
         = Some ((None, Some (field +:+ " is required when creating a MachineScope")), w))
  /\ (forall apiKey' dnsKey' params' w0 r w',
        NewMachineScope apiKey' dnsKey' params' w0 = Some (r, w') ->
        (r.1 = None <-> r.2 <> None)).
Proof.
  intros Hnil. split.
  - unfold NewMachineScope, validateMachineScopeParams, absent.
    destruct params as [c cl m lc lm]; simpl in *.
    destruct cl as [cl|]; [|exists "cluster"; split; [by left | reflexivity]].
    destruct m as [m|]; [|exists "machine"; split; [by right; left | reflexivity]].
    destruct lc as [lc|];
      [|exists "linodeCluster"; split; [by right; right; left | reflexivity]].
    destruct lm as [lm|];
      [|exists "linodeMachine"; split; [by right; right; right | reflexivity]].
    exfalso. by destruct Hnil as [?|[?|[?|?]]].
  - intros apiKey' dnsKey' params' w0 r w' H.
    by apply NewMachineScope_readonly in H as [_ ?].
Qed.

(** A pointer is nil or points to an object. *)
Definition allocated {A : Type} (objects : Heap -> gmap loc A) (w : World) (p : option loc)
  : Prop :=
  match p with
  | None => True
  | Some l => is_Some (objects (heap w) !! l)
  end.

Record paramsAllocated (w : World) (params : Params.MachineScopeParams) : Prop := {
  alloc_cluster : allocated hClusters w (Params.Cluster params);
  alloc_machine : allocated hMachines w (Params.Machine params);
  alloc_linodeCluster : allocated hLinodeClusters w (Params.LinodeCluster params);
  alloc_linodeMachine : allocated hLinodeMachines w (Params.LinodeMachine params)
}.

(** C8.  [NewMachineScope] returns, with a scope or with an error, and
    leaves every in-memory object (the owner [LinodeMachine], the
    [LinodeCluster], the [Cluster], the [Machine]) and every stored object
    as it found them: all it adds is the record of its reads and client
    constructions. *)
Theorem NewMachineScope_frame apiKey dnsKey params w :
  paramsAllocated w params ->
  exists r w',
    NewMachineScope apiKey dnsKey params w = Some (r, w')
    /\ heap w' = heap w /\ server w' = server w
    /\ exists cs, calls w' = (calls w ++ cs)%list /\ Forall (fun c => isWrite c = false) cs.
Proof.
  intros [Hc Hm Hlc Hlm].
  destruct (validateMachineScopeParams params) as [e|] eqn:Hv.
  { exists (None, Some e), w. unfold NewMachineScope. rewrite Hv.
    repeat split; try done. exists []. by rewrite app_nil_r. }
  unfold validateMachineScopeParams in Hv.
  destruct params as [c [cl|] [m|] [lc|] [lm|]]; simpl in *; try done.
  destruct Hc as [oc Hc], Hm as [om Hm], Hlc as [olc Hlc], Hlm as [olm Hlm].
  eexists _, _. split.
  { apply (NewMachineScope_run apiKey dnsKey _ _ olm olc).
    split; simpl; eauto. }
  simpl. repeat split; try done.
  eexists. split; [done|].
  apply Forall_app. split.
  - unfold resolveCalls. destruct (precedence _ _) as [o|]; [|done].
    destruct (credentialData _ _ _) as [? [?|]]; repeat constructor.
  - unfold factoryCalls. destruct (resolve _ _ _ _); [done|].
    destruct (validToken _); repeat constructor.
Qed.

(** *** Bootstrap data (C7, C10) *)

(** The three error texts of [GetBootstrapData]. *)
Definition missingReference := bootstrapError "bootstrap data secret is nil".
Definition secretNotFound := bootstrapError "failed to retrieve bootstrap data secret".
Definition payloadMissing := bootstrapError "bootstrap data secret value key is missing".

(** What [GetBootstrapData] returns once the secret named [name] has been
    looked up in the owner's namespace. *)
Definition bootstrapResult (srv : ApiServer) (linodeMachine : infrav1alpha1.LinodeMachine)
    (name : string) : byteslice * error :=
  match secrets srv !! (metav1.Namespace (infrav1alpha1.ObjectMeta linodeMachine), name) with
  | None => (Slice [], Some (secretNotFound linodeMachine))
  | Some secret =>
      match corev1.Data secret !! "value" with
      | None => (Slice [], Some (payloadMissing linodeMachine))
      | Some value => (value, None)
      end
  end.

Lemma GetBootstrapData_run m w machine linodeMachine :
  pointee hMachines w (Scope.Machine m) = Some machine ->
  pointee hLinodeMachines w (Scope.LinodeMachine m) = Some linodeMachine ->
  GetBootstrapData m w
  = match clusterv1.DataSecretName (clusterv1.Bootstrap_ (clusterv1.Spec machine)) with
    | None => Some ((Slice [], Some (missingReference linodeMachine)), w)
    | Some name =>
        Some (bootstrapResult (server w) linodeMachine name,
              addCalls [GetSecret (metav1.Namespace (infrav1alpha1.ObjectMeta linodeMachine),
                                   name)] w)
    end.
Proof.
  intros Hm Hlm. unfold GetBootstrapData.
  rewrite (bind_run _ _ _ _ _ (deref_run _ _ _ _ Hm)).
  destruct (clusterv1.DataSecretName _) as [name|].
  - rewrite (bind_run _ _ _ _ _ (deref_run _ _ _ _ Hlm)).
    rewrite (bind_run _ _ _ _ _ (Client_Get_run _ _ _)).
    unfold getResult, bootstrapResult.
    destruct (secrets (server w) !! _) as [secret|]; [|done].
    by destruct (corev1.Data secret !! "value").
  - by rewrite (bind_run _ _ _ _ _ (deref_run _ _ _ _ Hlm)).
Qed.

(** C7.  [GetBootstrapData] fails with the "missing reference" error, and
    without any call to the control plane, when the Machine's bootstrap
    data secret name is nil; otherwise it looks the secret up and fails
    with the "secret not found" error if there is none, with the "payload
    missing" error if the secret has no "value" key, and returns the
    payload otherwise.  The three errors are pairwise different. *)
Theorem GetBootstrapData_error_kinds m w machine linodeMachine :
  pointee hMachines w (Scope.Machine m) = Some machine ->
  pointee hLinodeMachines w (Scope.LinodeMachine m) = Some linodeMachine ->
  (missingReference linodeMachine <> secretNotFound linodeMachine
   /\ missingReference linodeMachine <> payloadMissing linodeMachine
   /\ secretNotFound linodeMachine <> payloadMissing linodeMachine)
  /\ match clusterv1.DataSecretName (clusterv1.Bootstrap_ (clusterv1.Spec machine)) with
     | None =>
         GetBootstrapData m w = Some ((Slice [], Some (missingReference linodeMachine)), w)
     | Some name =>
         exists r w',
           GetBootstrapData m w = Some (r, w')
           /\ filter (fun c => isNetwork c = true) (calls w')
              = (filter (fun c => isNetwork c = true) (calls w)
                 ++ [GetSecret (infrav1alpha1.GetNamespace linodeMachine, name)])%list
           /\ match secrets (server w) !! (infrav1alpha1.GetNamespace linodeMachine, name) with
              | None => r.2 = Some (secretNotFound linodeMachine)
              | Some secret =>
                  match corev1.Data secret !! "value" with
                  | None => r.2 = Some (payloadMissing linodeMachine)
                  | Some value => r = (value, None)
                  end
              end
     end.
Proof.
  intros Hm Hlm. split.
  - unfold missingReference, secretNotFound, payloadMissing, bootstrapError.
    simpl. repeat split; intros [=].
  - rewrite (GetBootstrapData_run _ _ _ _ Hm Hlm).
    destruct (clusterv1.DataSecretName _) as [name|]; [|done].
    eexists _, _. split; [done|]. split.
    + simpl. by rewrite filter_app.
    + unfold bootstrapResult, infrav1alpha1.GetNamespace.
      destruct (secrets (server w) !! _) as [secret|]; [|done].
      by destruct (corev1.Data secret !! "value").
Qed.

(** C10.  The bootstrap secret is always looked up under the
    [LinodeMachine]'s namespace and the Machine's bootstrap data secret
    name, whatever the Machine's own namespace; and whenever
    [GetBootstrapData] returns an error it returns the empty, non-nil
    slice with it. *)
Theorem GetBootstrapData_key_and_empty_slice m w machine linodeMachine :
  pointee hMachines w (Scope.Machine m) = Some machine ->
  pointee hLinodeMachines w (Scope.LinodeMachine m) = Some linodeMachine ->
  exists r w',
    GetBootstrapData m w = Some (r, w')
    /\ (r.2 <> None -> r.1 = Slice [] /\ isNil r.1 = false /\ len r.1 = 0)
    /\ match clusterv1.DataSecretName (clusterv1.Bootstrap_ (clusterv1.Spec machine)) with
       | Some name =>
           calls w'
           = (calls w
              ++ [GetSecret (metav1.Namespace (infrav1alpha1.ObjectMeta linodeMachine),
                             name)])%list
       | None => calls w' = calls w
       end.
Proof.
  intros Hm Hlm. rewrite (GetBootstrapData_run _ _ _ _ Hm Hlm).
  destruct (clusterv1.DataSecretName _) as [name|].
  - eexists _, _. split; [done|]. split; [|done].
    unfold bootstrapResult.
    destruct (secrets (server w) !! _) as [secret|]; [|done].
    by destruct (corev1.Data secret !! "value").
  - eexists _, _. split; [done|]. done.
Qed.

(** *** Running the operations that write *)

(** The world after the in-memory object at [l] has been replaced. *)
Definition setOwner (l : loc) (o : infrav1alpha1.LinodeMachine) (w : World) : World :=
  {| heap := {| hClusters := hClusters (heap w);
                hMachines := hMachines (heap w);
                hLinodeClusters := hLinodeClusters (heap w);
                hLinodeMachines := <[l := o]> (hLinodeMachines (heap w)) |};
     server := server w;
     calls := calls w |}.

(** The world after one patch request for [key]. *)
Definition persisted (key : ObjectKey) (p : ObjectPatch) (w : World) : World :=
  {| heap := heap w;
     server :=
       match linodeMachines (server w) !! key with
       | Some o => {| secrets := secrets (server w);
                      linodeMachines := <[key := applyPatch p o]> (linodeMachines (server w)) |}
       | None => server w
       end;
     calls := calls w ++ [PatchLinodeMachine key p] |}.

Definition patchError (srv : ApiServer) (key : ObjectKey) : error :=
  match linodeMachines srv !! key with
  | Some _ => None
  | None => Some (notFound "linodemachines" key)
  end.

Lemma Client_Patch_run c key p w :
  Client_Patch c key p w = Some (patchError (server w) key, persisted key p w).
Proof.
  unfold Client_Patch, patchError, persisted, bind, logCall, getServer, putServer, ret; simpl.
  destruct (linodeMachines (server w) !! key); [done|].
  by destruct w as [hp [] cs].
Qed.

Definition ownerKey (o : infrav1alpha1.LinodeMachine) : ObjectKey :=
  (infrav1alpha1.GetNamespace o, infrav1alpha1.GetName o).

(** One call of the patch helper on the object [after]. *)
Definition patchOutcome (h : patch.Helper) (after : infrav1alpha1.LinodeMachine) (w : World)
  : error * World :=
  let p := patch.diff (patch.before h) after in
  if patch.isEmpty p then (None, w)
  else (patchError (server w) (ownerKey after), persisted (ownerKey after) p w).

Lemma Patch_run h l after w :
  hLinodeMachines (heap w) !! l = Some after ->
  patch.Patch (Some h) (Some l) w = Some (patchOutcome h after w).
Proof.
  intros Hl. unfold patch.Patch, patchOutcome.
  rewrite (bind_run _ _ _ _ _ (deref_run hLinodeMachines (Some l) w after Hl)).
  destruct (patch.isEmpty _); [done|]. apply Client_Patch_run.
Qed.

Lemma AddFinalizer_present l finalizer o w :
  hLinodeMachines (heap w) !! l = Some o ->
  finalizer ∈ infrav1alpha1.GetFinalizers o ->
  controllerutil.AddFinalizer (Some l) finalizer w = Some (false, w).
Proof.
  intros Hl Hin. unfold controllerutil.AddFinalizer.
  rewrite (bind_run _ _ _ _ _ (deref_run hLinodeMachines (Some l) w o Hl)).
  by rewrite decide_True.
Qed.

Lemma AddFinalizer_absent l finalizer o w :
  hLinodeMachines (heap w) !! l = Some o ->
  finalizer ∉ infrav1alpha1.GetFinalizers o ->
  controllerutil.AddFinalizer (Some l) finalizer w
  = Some (true,
          setOwner l (infrav1alpha1.SetFinalizers
                        (infrav1alpha1.GetFinalizers o ++ [finalizer]) o) w).
Proof.
  intros Hl Hin. unfold controllerutil.AddFinalizer.
  rewrite (bind_run _ _ _ _ _ (deref_run hLinodeMachines (Some l) w o Hl)).
  by rewrite decide_False.
Qed.

(** Fetching the secret at [key], changing it with [f] and sending it
    back. *)
Definition secretUpdate (key : ObjectKey) (f : corev1.Secret -> corev1.Secret) (w : World)
  : error * World :=
  match secrets (server w) !! key with
  | None => (Some (wrapf "get credentials secret" (notFound "secrets" key)),
             addCalls [GetSecret key] w)
  | Some secret =>
      (None,
       {| heap := heap w;
          server := {| secrets := <[key := f secret]> (secrets (server w));
                       linodeMachines := linodeMachines (server w) |};
          calls := calls w ++ [GetSecret key; UpdateSecret key (f secret)] |})
  end.

Lemma Client_Update_present c key s0 s1 w :
  secrets (server w) !! key = Some s0 ->
  Client_Update c key s1 w
  = Some (None, {| heap := heap w;
                   server := {| secrets := <[key := s1]> (secrets (server w));
                                linodeMachines := linodeMachines (server w) |};
                   calls := calls w ++ [UpdateSecret key s1] |}).
Proof.
  intros H. unfold Client_Update, bind, logCall, getServer, putServer, ret; simpl.
  by rewrite H.
Qed.

Lemma addCredentialsFinalizer_run c ref ns finalizer w :
  addCredentialsFinalizer c ref ns finalizer w
  = Some (secretUpdate (secretKey ref ns)
            (fun secret => controllerutil.AddFinalizerSecret secret finalizer) w).
Proof.
  unfold addCredentialsFinalizer, secretUpdate.
  rewrite (bind_run _ _ _ _ _ (Client_Get_run _ _ _)). unfold getResult.
  destruct (secrets (server w) !! secretKey ref ns) as [secret|] eqn:E; [|done].
  erewrite Client_Update_present by exact E.
  simpl. by rewrite <- app_assoc.
Qed.

Lemma removeCredentialsFinalizer_run c ref ns finalizer w :
  removeCredentialsFinalizer c ref ns finalizer w
  = Some (secretUpdate (secretKey ref ns)
            (fun secret => controllerutil.RemoveFinalizerSecret secret finalizer) w).
Proof.
  unfold removeCredentialsFinalizer, secretUpdate.
  rewrite (bind_run _ _ _ _ _ (Client_Get_run _ _ _)). unfold getResult.
  destruct (secrets (server w) !! secretKey ref ns) as [secret|] eqn:E; [|done].
  erewrite Client_Update_present by exact E.
  simpl. by rewrite <- app_assoc.
Qed.

Lemma secretUpdate_heap key f w : heap (secretUpdate key f w).2 = heap w.
Proof. unfold secretUpdate. by destruct (secrets (server w) !! key). Qed.

Lemma patchOutcome_heap h after w : heap (patchOutcome h after w).2 = heap w.
Proof. unfold patchOutcome. by destruct (patch.isEmpty _). Qed.

(** The scope's owner pointer and patch helper are usable. *)
Record scopeOk (w : World) (s : Scope.MachineScope) (l : loc) (h : patch.Helper)
    (linodeMachine : infrav1alpha1.LinodeMachine) : Prop := {
  ok_owner : Scope.LinodeMachine s = Some l;
  ok_object : hLinodeMachines (heap w) !! l = Some linodeMachine;
  ok_helper : Scope.PatchHelper s = Some h
}.

Lemma PatchObject_run s w l h linodeMachine :
  scopeOk w s l h linodeMachine ->
  PatchObject s w = Some (patchOutcome h linodeMachine w).
Proof.
  intros [Hl Ho Hh]. unfold PatchObject. rewrite Hl, Hh. by apply Patch_run.
Qed.

(** *** The machine finalizer (C4) *)


Lemma GetFinalizers_SetFinalizers f o :
  infrav1alpha1.GetFinalizers (infrav1alpha1.SetFinalizers f o) = f.
Proof. done. Qed.

Lemma diff_finalizers_nonempty old new :
  infrav1alpha1.GetFinalizers old <> infrav1alpha1.GetFinalizers new ->
  patch.isEmpty (patch.diff old new) = false
  /\ patchFinalizers (patch.diff old new) = Some (infrav1alpha1.GetFinalizers new).
Proof.
  intros Hne. unfold patch.isEmpty, patch.diff. simpl.
  by destruct (decide (infrav1alpha1.GetFinalizers old = infrav1alpha1.GetFinalizers new)).
Qed.


(** *** The credential-protection finalizer (C6) *)

Lemma AddFinalizerSecret_elem secret finalizer :
  finalizer ∈ metav1.Finalizers
                (corev1.ObjectMeta (controllerutil.AddFinalizerSecret secret finalizer)).
Proof.
  unfold controllerutil.AddFinalizerSecret.
  destruct (decide _) as [Hin|Hnin]; [done|]. simpl. apply elem_of_app. right. by left.
Qed.

Lemma RemoveFinalizerSecret_not_elem secret finalizer :
  finalizer ∉ metav1.Finalizers
                (corev1.ObjectMeta (controllerutil.RemoveFinalizerSecret secret finalizer)).
Proof.
  unfold controllerutil.RemoveFinalizerSecret. simpl.
  intros Hin. by apply list_elem_of_filter in Hin as [Hne _].
Qed.

(** C6.  Without a credential override on the [LinodeMachine], both
    operations succeed and leave the world as it is: no read, no write.
    With an override, they fetch the referenced secret, its namespace
    defaulting to the [LinodeMachine]'s, and send it back with the
    finalizer added, respectively removed; the finalizer is a function of
    the [LinodeMachine]'s kind, namespace and name only. *)
Theorem CredentialsRefFinalizer_override s w linodeMachine :
  pointee hLinodeMachines w (Scope.LinodeMachine s) = Some linodeMachine ->
  match infrav1alpha1.CredentialsRef (infrav1alpha1.Spec linodeMachine) with
  | None =>
      AddCredentialsRefFinalizer s w = Some (None, w)
      /\ RemoveCredentialsRefFinalizer s w = Some (None, w)
  | Some ref =>
      let key :=
        (if decide (corev1.Namespace ref = "")
         then metav1.Namespace (infrav1alpha1.ObjectMeta linodeMachine)
         else corev1.Namespace ref,
         corev1.Name ref) in
      let finalizer :=
        finalizerFormat "LinodeMachine"
          (metav1.Namespace (infrav1alpha1.ObjectMeta linodeMachine))
          (metav1.Name (infrav1alpha1.ObjectMeta linodeMachine)) in
      AddCredentialsRefFinalizer s w
      = Some (secretUpdate key
                (fun secret => controllerutil.AddFinalizerSecret secret finalizer) w)
      /\ RemoveCredentialsRefFinalizer s w
         = Some (secretUpdate key
                   (fun secret => controllerutil.RemoveFinalizerSecret secret finalizer) w)
      /\ (forall secret,
            finalizer ∈ metav1.Finalizers
                          (corev1.ObjectMeta
                             (controllerutil.AddFinalizerSecret secret finalizer))
            /\ finalizer ∉ metav1.Finalizers
                             (corev1.ObjectMeta
                                (controllerutil.RemoveFinalizerSecret secret finalizer)))
  end.
Proof.
  intros Hlm. unfold AddCredentialsRefFinalizer, RemoveCredentialsRefFinalizer.
  rewrite !(bind_run _ _ _ _ _ (deref_run _ _ _ _ Hlm)).
  destruct (infrav1alpha1.CredentialsRef (infrav1alpha1.Spec linodeMachine)) as [ref|];
    [|done].
  simpl. split; [apply addCredentialsFinalizer_run|].
  split; [apply removeCredentialsFinalizer_run|].
  intros secret. split.
  - apply AddFinalizerSecret_elem.
  - apply RemoveFinalizerSecret_not_elem.
Qed.

(** *** No operation of the scope removes a finalizer (C5) *)

(** The methods machine.go declares on [*MachineScope]. *)
Variant Method : Type :=
  | MPatchObject
  | MClose
  | MAddFinalizer
  | MGetBootstrapData
  | MAddCredentialsRefFinalizer
  | MRemoveCredentialsRefFinalizer.

Definition discard {A : Type} (m : M A) : M unit := let* _ := m in ret tt.

Definition invoke (meth : Method) (s : Scope.MachineScope) : M unit :=
  match meth with
  | MPatchObject => discard (PatchObject s)
  | MClose => discard (Close s)
  | MAddFinalizer => discard (AddFinalizer s)
  | MGetBootstrapData => discard (GetBootstrapData s)
  | MAddCredentialsRefFinalizer => discard (AddCredentialsRefFinalizer s)
  | MRemoveCredentialsRefFinalizer => discard (RemoveCredentialsRefFinalizer s)
  end.

(** Every in-memory [LinodeMachine] of [hp] is still there in [hp'], with
    at least the finalizers it had. *)
Definition finalizersKept (hp hp' : Heap) : Prop :=
  forall l o, hLinodeMachines hp !! l = Some o ->
    exists o', hLinodeMachines hp' !! l = Some o'
               /\ forall f, f ∈ infrav1alpha1.GetFinalizers o ->
                            f ∈ infrav1alpha1.GetFinalizers o'.

Lemma finalizersKept_refl hp : finalizersKept hp hp.
Proof. intros l o Ho. by exists o. Qed.

Lemma discard_run {A : Type} (m : M A) w r :
  m w = Some r -> discard m w = Some (tt, r.2).
Proof. intros H. unfold discard. by rewrite (bind_result _ _ _ _ H). Qed.

Lemma CredentialsRefFinalizer_keeps s w linodeMachine :
  pointee hLinodeMachines w (Scope.LinodeMachine s) = Some linodeMachine ->
  (exists w', discard (AddCredentialsRefFinalizer s) w = Some (tt, w')
              /\ finalizersKept (heap w) (heap w'))
  /\ (exists w', discard (RemoveCredentialsRefFinalizer s) w = Some (tt, w')
                 /\ finalizersKept (heap w) (heap w')).
Proof.
  intros Hlm. unfold AddCredentialsRefFinalizer, RemoveCredentialsRefFinalizer, discard.
  rewrite !bind_bind, !(bind_run _ _ _ _ _ (deref_run _ _ _ _ Hlm)).
  destruct (infrav1alpha1.CredentialsRef (infrav1alpha1.Spec linodeMachine)) as [ref|].
  - rewrite (bind_result _ _ _ _ (addCredentialsFinalizer_run _ _ _ _ _)).
    rewrite (bind_result _ _ _ _ (removeCredentialsFinalizer_run _ _ _ _ _)).
    split; eexists; (split; [reflexivity|]);
      rewrite secretUpdate_heap; apply finalizersKept_refl.
  - split; exists w; (split; [done|apply finalizersKept_refl]).
Qed.

(** C5, as the code has it.  machine.go has no operation that removes the
    machine finalizer: whichever method of the scope is called, it
    returns and every in-memory [LinodeMachine] keeps all the finalizers
    it had. *)
Theorem no_method_removes_a_finalizer meth s w l h linodeMachine machine :
  scopeOk w s l h linodeMachine ->
  pointee hMachines w (Scope.Machine s) = Some machine ->
  exists w', invoke meth s w = Some (tt, w') /\ finalizersKept (heap w) (heap w').
Proof.
  intros Hok Hm. pose proof Hok as [Hl Ho Hh].
  assert (Hlm : pointee hLinodeMachines w (Scope.LinodeMachine s) = Some linodeMachine).
  { by rewrite Hl. }
  assert (Hpatch : exists w', discard (PatchObject s) w = Some (tt, w')
                              /\ finalizersKept (heap w) (heap w')).
  { eexists. split; [apply discard_run, (PatchObject_run _ _ _ _ _ Hok)|].
    rewrite patchOutcome_heap. apply finalizersKept_refl. }
  destruct meth; simpl.
  - exact Hpatch.
  - exact Hpatch.
  - destruct (decide (MachineFinalizer ∈ infrav1alpha1.GetFinalizers linodeMachine))
      as [Hin|Hnin].
    + exists w. split; [|apply finalizersKept_refl].
      apply (discard_run _ _ (None, w)). unfold AddFinalizer. rewrite Hl.
      by rewrite (bind_run _ _ _ _ _ (AddFinalizer_present _ _ _ _ Ho Hin)).
    + set (updated := infrav1alpha1.SetFinalizers
                        (infrav1alpha1.GetFinalizers linodeMachine ++ [MachineFinalizer])
                        linodeMachine).
      assert (Hok0 : scopeOk (setOwner l updated w) s l h updated).
      { split; [done| |done]. simpl. apply lookup_insert_eq. }
      eexists. split.
      * apply discard_run. unfold AddFinalizer. rewrite Hl.
        rewrite (bind_run _ _ _ _ _ (AddFinalizer_absent _ _ _ _ Ho Hnin)).
        unfold Close. apply (PatchObject_run _ _ _ _ _ Hok0).
      * rewrite patchOutcome_heap. simpl. intros l' o Hl'.
        destruct (decide (l' = l)) as [->|Hne].
        -- exists updated. split; [apply lookup_insert_eq|].
           intros f Hf. subst updated. rewrite GetFinalizers_SetFinalizers.
           assert (o = linodeMachine) as -> by congruence.
           apply elem_of_app. by left.
        -- exists o. split; [|done]. simpl. by rewrite lookup_insert_ne by congruence.
  - pose proof (GetBootstrapData_run _ _ _ _ Hm Hlm) as Hrun.
    destruct (clusterv1.DataSecretName _) as [name|].
    + eexists. split; [apply (discard_run _ _ _ Hrun)|]. apply finalizersKept_refl.
    + eexists. split; [apply (discard_run _ _ _ Hrun)|]. apply finalizersKept_refl.
  - pose proof (CredentialsRefFinalizer_keeps s w linodeMachine Hlm) as [Hadd _].
    exact Hadd.
  - pose proof (CredentialsRefFinalizer_keeps s w linodeMachine Hlm) as [_ Hrm].
    exact Hrm.
Qed.

(** *** Further properties of construction *)

(** X1.  Validation succeeds exactly when all four references are present;
    otherwise the error names the first absent one in the order cluster,
    machine, linodeCluster, linodeMachine. *)
Theorem validateMachineScopeParams_first_absent params :
  (validateMachineScopeParams params = None
   <-> Params.Cluster params <> None /\ Params.Machine params <> None
       /\ Params.LinodeCluster params <> None /\ Params.LinodeMachine params <> None)
  /\ (Params.Cluster params = None ->
      validateMachineScopeParams params
      = Some "cluster is required when creating a MachineScope")
  /\ (Params.Cluster params <> None -> Params.Machine params = None ->
      validateMachineScopeParams params
      = Some "machine is required when creating a MachineScope")
  /\ (Params.Cluster params <> None -> Params.Machine params <> None ->
      Params.LinodeCluster params = None ->
      validateMachineScopeParams params
      = Some "linodeCluster is required when creating a MachineScope")
  /\ (Params.Cluster params <> None -> Params.Machine params <> None ->
      Params.LinodeCluster params <> None -> Params.LinodeMachine params = None ->
      validateMachineScopeParams params
      = Some "linodeMachine is required when creating a MachineScope").
Proof.
  unfold validateMachineScopeParams.
  destruct params as [c [cl|] [m|] [lc|] [lm|]]; simpl;
    (split; [split; [intros H; try discriminate H; by repeat split
                    |intros (H1 & H2 & H3 & H4); congruence]
            |repeat split; intros; congruence]).
Qed.

Lemma allocated_paramsOk w params :
  paramsAllocated w params ->
  validateMachineScopeParams params = None ->
  exists linodeMachine linodeCluster, paramsOk w params linodeMachine linodeCluster.
Proof.
  intros [Hc Hm Hlc Hlm] Hv. unfold validateMachineScopeParams in Hv.
  destruct params as [c [cl|] [m|] [lc|] [lm|]]; simpl in *; try discriminate Hv.
  destruct Hlc as [olc Hlc], Hlm as [olm Hlm].
  exists olm, olc. by split.
Qed.

(** What a successful construction hands back, and where. *)
Lemma NewMachineScope_success apiKey dnsKey params w s w' :
  paramsAllocated w params ->
  NewMachineScope apiKey dnsKey params w = Some ((Some s, None), w') ->
  exists linodeMachine linodeCluster l cs,
    paramsOk w params linodeMachine linodeCluster
    /\ Params.LinodeMachine params = Some l
    /\ Scope.LinodeMachine s = Some l
    /\ Scope.PatchHelper s
       = Some {| patch.client := Params.Client params; patch.before := linodeMachine |}
    /\ Scope.Machine s = Params.Machine params
    /\ w' = addCalls cs w.
Proof.
  intros Halloc Hrun.
  destruct (validateMachineScopeParams params) as [e|] eqn:Hv.
  { unfold NewMachineScope in Hrun. rewrite Hv in Hrun. discriminate Hrun. }
  destruct (allocated_paramsOk _ _ Halloc Hv) as (lm & lc & Hok).
  rewrite (NewMachineScope_run apiKey dnsKey _ _ _ _ Hok) in Hrun.
  injection Hrun as Hres Hw. subst w'.
  pose proof Hok as [_ _ _ Hlm].
  destruct (Params.LinodeMachine params) as [l|] eqn:Hl; [|discriminate Hlm].
  unfold assemble in Hres.
  destruct (resolve _ _ _ _) as [e|a d]; [discriminate Hres|].
  destruct (validToken a && validToken d); [|discriminate Hres].
  injection Hres as <-.
  exists lm, lc, l. eexists. split; [exact Hok|].
  simpl. rewrite ?Hl. by repeat split.
Qed.

(** X2.  When the selected reference's secret, or its "apiToken" key, is
    missing, construction fails with a "credentials from secret ref" error
    after that single lookup: no second read, no client built. *)
Theorem NewMachineScope_lookup_error
    apiKey dnsKey params w linodeMachine linodeCluster ref ns :
  paramsOk w params linodeMachine linodeCluster ->
  selectedOverride linodeMachine linodeCluster = Some (ref, ns) ->
  (secrets (server w) !! secretKey ref ns = None
   \/ exists secret, secrets (server w) !! secretKey ref ns = Some secret
                     /\ corev1.Data secret !! "apiToken" = None) ->
  exists msg,
    NewMachineScope apiKey dnsKey params w
    = Some ((None, Some (wrapf "credentials from secret ref" msg)),
            addCalls [GetSecret (secretKey ref ns)] w).
Proof.
  intros Hok Hsel Hmissing.
  rewrite (NewMachineScope_run apiKey dnsKey _ _ _ _ Hok).
  unfold selectedOverride in Hsel. rewrite Hsel.
  unfold resolve, resolveCalls, fromSecret, credentialData. simpl.
  destruct Hmissing as [Hnone | (secret & Hsome & Hkey)].
  - rewrite Hnone. simpl. by eexists.
  - rewrite Hsome, Hkey. simpl. by eexists.
Qed.

(** X3.  Once a credential reference is selected, the [apiKey] and [dnsKey]
    the caller passed play no role: any other pair gives the same result
    and the same external calls. *)
Theorem NewMachineScope_ignores_defaults
    apiKey dnsKey apiKey' dnsKey' params w linodeMachine linodeCluster o :
  paramsOk w params linodeMachine linodeCluster ->
  selectedOverride linodeMachine linodeCluster = Some o ->
  NewMachineScope apiKey dnsKey params w = NewMachineScope apiKey' dnsKey' params w.
Proof.
  intros Hok Hsel.
  rewrite (NewMachineScope_run apiKey dnsKey _ _ _ _ Hok).
  rewrite (NewMachineScope_run apiKey' dnsKey' _ _ _ _ Hok).
  unfold selectedOverride in Hsel. by rewrite Hsel.
Qed.

(** X4.  Without any override the domains client is built from [dnsKey]
    exactly as passed: a [dnsKey] the client factory rejects makes
    construction fail, after both constructions were attempted, even though
    [apiKey] is usable; there is no fallback to [apiKey] on this path. *)
Theorem NewMachineScope_default_dnsKey_no_fallback
    apiKey dnsKey params w linodeMachine linodeCluster :
  paramsOk w params linodeMachine linodeCluster ->
  selectedOverride linodeMachine linodeCluster = None ->
  validToken apiKey = true ->
  validToken dnsKey = false ->
  exists e,
    NewMachineScope apiKey dnsKey params w
    = Some ((None, Some (wrapf "failed to create linode client" e)),
            addCalls [NewLinodeClient apiKey; NewLinodeClient dnsKey] w).
Proof.
  intros Hok Hsel Ha Hd.
  rewrite (NewMachineScope_run apiKey dnsKey _ _ _ _ Hok).
  unfold selectedOverride in Hsel. rewrite Hsel.
  unfold resolve, resolveCalls, assemble, factoryCalls. rewrite Ha, Hd. simpl.
  by eexists.
Qed.

(** *** Construction followed by the scope's operations *)

Lemma diff_same o : patch.isEmpty (patch.diff o o) = true.
Proof.
  unfold patch.isEmpty, patch.diff. simpl.
  by rewrite !decide_True.
Qed.

Lemma NewMachineScope_scopeOk apiKey dnsKey params w s w' :
  paramsAllocated w params ->
  NewMachineScope apiKey dnsKey params w = Some ((Some s, None), w') ->
  exists l linodeMachine machine,
    Params.LinodeMachine params = Some l
    /\ hLinodeMachines (heap w) !! l = Some linodeMachine
    /\ heap w' = heap w /\ server w' = server w
    /\ scopeOk w' s l {| patch.client := Params.Client params;
                          patch.before := linodeMachine |} linodeMachine
    /\ pointee hMachines w' (Scope.Machine s) = Some machine.
Proof.
  intros Halloc Hrun.
  destruct (NewMachineScope_success _ _ _ _ _ _ Halloc Hrun)
    as (lm & lc & l & cs & Hok & Hl & Hsl & Hh & Hm & ->).
  destruct Hok as [_ [machine Hmachine] _ Hlm].
  rewrite Hl in Hlm. simpl in Hlm.
  exists l, lm, machine. split; [done|]. split; [done|].
  split; [done|]. split; [done|]. split; [by split|].
  by rewrite Hm, pointee_addCalls.
Qed.

(** X5.  A scope is built with a snapshot of the owner as it is at that
    moment, so a [Close] (or [PatchObject]) right after construction finds
    nothing to persist: it returns nil and sends nothing. *)
Theorem Close_after_NewMachineScope apiKey dnsKey params w s w' :
  paramsAllocated w params ->
  NewMachineScope apiKey dnsKey params w = Some ((Some s, None), w') ->
  Close s w' = Some (None, w') /\ PatchObject s w' = Some (None, w').
Proof.
  intros Halloc Hrun.
  destruct (NewMachineScope_scopeOk _ _ _ _ _ _ Halloc Hrun)
    as (l & lm & machine & _ & _ & _ & _ & Hok & _).
  unfold Close. rewrite (PatchObject_run _ _ _ _ _ Hok).
  unfold patchOutcome. simpl. by rewrite diff_same.
Qed.

Lemma AddFinalizer_noop s w l h linodeMachine :
  scopeOk w s l h linodeMachine ->
  MachineFinalizer ∈ infrav1alpha1.GetFinalizers linodeMachine ->
  AddFinalizer s w = Some (None, w).
Proof.
  intros [Hl Ho Hh] Hin. unfold AddFinalizer. rewrite Hl.
  by rewrite (bind_run _ _ _ _ _ (AddFinalizer_present _ _ _ _ Ho Hin)).
Qed.

(** The owner with the machine finalizer appended. *)
Definition withMachineFinalizer (o : infrav1alpha1.LinodeMachine)
  : infrav1alpha1.LinodeMachine :=
  infrav1alpha1.SetFinalizers
    (infrav1alpha1.GetFinalizers o ++ [MachineFinalizer])%list o.

Lemma AddFinalizer_appends s w l h linodeMachine :
  scopeOk w s l h linodeMachine ->
  MachineFinalizer ∉ infrav1alpha1.GetFinalizers linodeMachine ->
  AddFinalizer s w
  = Some (patchOutcome h (withMachineFinalizer linodeMachine)
            (setOwner l (withMachineFinalizer linodeMachine) w)).
Proof.
  intros Hok Hnin. pose proof Hok as [Hl Ho Hh].
  unfold AddFinalizer. rewrite Hl.
  rewrite (bind_run _ _ _ _ _ (AddFinalizer_absent _ _ _ _ Ho Hnin)).
  unfold Close. apply (PatchObject_run _ _ l h).
  split; [done| |done]. simpl. apply lookup_insert_eq.
Qed.

Lemma withMachineFinalizer_elem o :
  MachineFinalizer ∈ infrav1alpha1.GetFinalizers (withMachineFinalizer o).
Proof.
  unfold withMachineFinalizer. rewrite GetFinalizers_SetFinalizers.
  apply elem_of_app. right. by left.
Qed.

Lemma diff_withMachineFinalizer old o :
  MachineFinalizer ∉ infrav1alpha1.GetFinalizers old ->
  patch.isEmpty (patch.diff old (withMachineFinalizer o)) = false.
Proof.
  intros Hnin. apply diff_finalizers_nonempty.
  intros E. apply Hnin. rewrite E. apply withMachineFinalizer_elem.
Qed.

(** X6.  On a freshly built scope whose owner does not carry the machine
    finalizer, [AddFinalizer] sends exactly one patch, leaves the owner
    with the finalizer appended, and a second call does nothing. *)
Theorem AddFinalizer_after_NewMachineScope apiKey dnsKey params w s w' l linodeMachine :
  paramsAllocated w params ->
  NewMachineScope apiKey dnsKey params w = Some ((Some s, None), w') ->
  Params.LinodeMachine params = Some l ->
  hLinodeMachines (heap w) !! l = Some linodeMachine ->
  MachineFinalizer ∉ infrav1alpha1.GetFinalizers linodeMachine ->
  exists err w1,
    AddFinalizer s w' = Some (err, w1)
    /\ hLinodeMachines (heap w1) !! l = Some (withMachineFinalizer linodeMachine)
    /\ writes w1 = S (writes w')
    /\ AddFinalizer s w1 = Some (None, w1).
Proof.
  intros Halloc Hrun Hl Ho Hnin.
  destruct (NewMachineScope_scopeOk _ _ _ _ _ _ Halloc Hrun)
    as (l' & lm & machine & Hl' & Ho' & Hheap & _ & Hok & _).
  assert (l' = l) as -> by congruence.
  assert (lm = linodeMachine) as -> by congruence.
  set (updated := withMachineFinalizer linodeMachine).
  pose proof (AddFinalizer_appends _ _ _ _ _ Hok Hnin) as Hadd.
  unfold patchOutcome in Hadd. simpl in Hadd.
  rewrite (diff_withMachineFinalizer _ _ Hnin) in Hadd. fold updated in Hadd.
  eexists _, _. split; [exact Hadd|].
  split; [simpl; apply lookup_insert_eq|].
  split.
  { unfold writes, persisted, setOwner; cbn [calls].
    rewrite filter_app, length_app.
    rewrite filter_cons_True, filter_nil by done. simpl. lia. }
  apply (AddFinalizer_noop _ _ l {| patch.client := Params.Client params;
                                    patch.before := linodeMachine |} updated).
  - destruct Hok as [Hsl _ Hh]. split; [done| |done]. simpl. apply lookup_insert_eq.
  - apply withMachineFinalizer_elem.
Qed.

Lemma invoke_returns meth s w l h linodeMachine machine :
  scopeOk w s l h linodeMachine ->
  pointee hMachines w (Scope.Machine s) = Some machine ->
  exists w', invoke meth s w = Some (tt, w').
Proof.
  intros Hok Hm. pose proof Hok as [Hl Ho Hh].
  assert (Hlm : pointee hLinodeMachines w (Scope.LinodeMachine s) = Some linodeMachine).
  { by rewrite Hl. }
  destruct meth; simpl.
  - eexists. apply discard_run, (PatchObject_run _ _ _ _ _ Hok).
  - eexists. apply discard_run, (PatchObject_run _ _ _ _ _ Hok).
  - destruct (decide (MachineFinalizer ∈ infrav1alpha1.GetFinalizers linodeMachine))
      as [Hin|Hnin].
    + eexists. apply discard_run, (AddFinalizer_noop _ _ _ _ _ Hok Hin).
    + eexists. apply discard_run, (AddFinalizer_appends _ _ _ _ _ Hok Hnin).
  - pose proof (GetBootstrapData_run _ _ _ _ Hm Hlm) as Hrun.
    destruct (clusterv1.DataSecretName _); eexists; apply (discard_run _ _ _ Hrun).
  - unfold AddCredentialsRefFinalizer, discard.
    rewrite bind_bind, (bind_run _ _ _ _ _ (deref_run _ _ _ _ Hlm)).
    destruct (infrav1alpha1.CredentialsRef (infrav1alpha1.Spec linodeMachine)) as [ref|].
    + rewrite (bind_result _ _ _ _ (addCredentialsFinalizer_run _ _ _ _ _)). by eexists.
    + by eexists.
  - unfold RemoveCredentialsRefFinalizer, discard.
    rewrite bind_bind, (bind_run _ _ _ _ _ (deref_run _ _ _ _ Hlm)).
    destruct (infrav1alpha1.CredentialsRef (infrav1alpha1.Spec linodeMachine)) as [ref|].
    + rewrite (bind_result _ _ _ _ (removeCredentialsFinalizer_run _ _ _ _ _)). by eexists.
    + by eexists.
Qed.

(** X7.  Validation pays off later: on a scope that [NewMachineScope]
    returned, every method returns; none of them runs into a nil
    [Machine], [LinodeMachine] or patch helper. *)
Theorem methods_return_after_NewMachineScope apiKey dnsKey params w s w' meth :
  paramsAllocated w params ->
  NewMachineScope apiKey dnsKey params w = Some ((Some s, None), w') ->
  exists w'', invoke meth s w' = Some (tt, w'').
Proof.
  intros Halloc Hrun.
  destruct (NewMachineScope_scopeOk _ _ _ _ _ _ Halloc Hrun)
    as (l & lm & machine & _ & _ & _ & _ & Hok & Hm).
  exact (invoke_returns meth _ _ _ _ _ _ Hok Hm).
Qed.

(** *** Further properties of [AddFinalizer] *)

Lemma patchOutcome_secrets h after w :
  secrets (server (patchOutcome h after w).2) = secrets (server w).
Proof.
  unfold patchOutcome. destruct (patch.isEmpty _); [done|].
  unfold persisted. simpl. by destruct (linodeMachines (server w) !! _).
Qed.

Lemma patchOutcome_stored h after w :
  (forall key, key <> ownerKey after ->
     linodeMachines (server (patchOutcome h after w).2) !! key
     = linodeMachines (server w) !! key)
  /\ (linodeMachines (server (patchOutcome h after w).2) !! ownerKey after
      = linodeMachines (server w) !! ownerKey after
      \/ exists stored,
           linodeMachines (server w) !! ownerKey after = Some stored
           /\ linodeMachines (server (patchOutcome h after w).2) !! ownerKey after
              = Some (applyPatch (patch.diff (patch.before h) after) stored)).
Proof.
  unfold patchOutcome. destruct (patch.isEmpty _); [by split; [|left]|].
  unfold persisted. simpl.
  destruct (linodeMachines (server w) !! ownerKey after) as [stored|] eqn:Hstored; simpl.
  - split.
    + intros key Hne. by rewrite lookup_insert_ne by congruence.
    + right. exists stored. split; [done|]. apply lookup_insert_eq.
  - split; [done|]. left. by rewrite Hstored.
Qed.

(** X8.  In memory [AddFinalizer] touches one thing only: the finalizer
    list of the owner, which it extends at the end; the owner's name,
    namespace, spec and status and every other in-memory object are as
    before, and afterwards the owner carries the machine finalizer.  In
    the control plane it changes no secret and no stored [LinodeMachine]
    other than the owner's; the owner's stored copy is either as before or
    patched with everything in which the owner, finalizer appended, differs
    from the snapshot: the finalizer list and, with it, any change of spec
    or status made in memory before the call. *)
Theorem AddFinalizer_frame s w l h linodeMachine err w1 :
  scopeOk w s l h linodeMachine ->
  AddFinalizer s w = Some (err, w1) ->
  hClusters (heap w1) = hClusters (heap w)
  /\ hMachines (heap w1) = hMachines (heap w)
  /\ hLinodeClusters (heap w1) = hLinodeClusters (heap w)
  /\ (forall l', l' <> l ->
        hLinodeMachines (heap w1) !! l' = hLinodeMachines (heap w) !! l')
  /\ secrets (server w1) = secrets (server w)
  /\ (exists o,
        hLinodeMachines (heap w1) !! l = Some o
        /\ infrav1alpha1.Spec o = infrav1alpha1.Spec linodeMachine
        /\ infrav1alpha1.Status o = infrav1alpha1.Status linodeMachine
        /\ infrav1alpha1.GetName o = infrav1alpha1.GetName linodeMachine
        /\ infrav1alpha1.GetNamespace o = infrav1alpha1.GetNamespace linodeMachine
        /\ infrav1alpha1.GetFinalizers linodeMachine `prefix_of` infrav1alpha1.GetFinalizers o
        /\ MachineFinalizer ∈ infrav1alpha1.GetFinalizers o)
  /\ (forall key, key <> ownerKey linodeMachine ->
        linodeMachines (server w1) !! key = linodeMachines (server w) !! key)
  /\ (linodeMachines (server w1) !! ownerKey linodeMachine
      = linodeMachines (server w) !! ownerKey linodeMachine
      \/ exists stored,
           (MachineFinalizer ∉ infrav1alpha1.GetFinalizers linodeMachine)
           /\ linodeMachines (server w) !! ownerKey linodeMachine = Some stored
           /\ linodeMachines (server w1) !! ownerKey linodeMachine
              = Some (applyPatch
                        (patch.diff (patch.before h) (withMachineFinalizer linodeMachine))
                        stored)).
Proof.
  intros Hok Hrun. pose proof Hok as [Hl Ho Hh].
  destruct (decide (MachineFinalizer ∈ infrav1alpha1.GetFinalizers linodeMachine))
    as [Hin|Hnin].
  - rewrite (AddFinalizer_noop _ _ _ _ _ Hok Hin) in Hrun. injection Hrun as <- <-.
    do 5 (split; [done|]).
    split; [exists linodeMachine; by repeat split|].
    split; [done|]. by left.
  - rewrite (AddFinalizer_appends _ _ _ _ _ Hok Hnin) in Hrun.
    set (updated := withMachineFinalizer linodeMachine) in *.
    assert (Hw1 : w1 = (patchOutcome h updated (setOwner l updated w)).2).
    { injection Hrun as Hrun. by rewrite Hrun. }
    assert (Hkey : ownerKey updated = ownerKey linodeMachine) by done.
    destruct (patchOutcome_stored h updated (setOwner l updated w)) as [Hother Hown].
    rewrite <- Hw1, Hkey in Hother, Hown.
    rewrite Hw1, patchOutcome_heap, patchOutcome_secrets. rewrite <- Hw1. simpl.
    do 3 (split; [done|]).
    split; [intros l' Hne; by rewrite lookup_insert_ne by congruence|].
    split; [done|].
    split.
    { exists updated. split; [apply lookup_insert_eq|].
      do 4 (split; [done|]). split.
      + subst updated. unfold withMachineFinalizer.
        rewrite GetFinalizers_SetFinalizers. by eexists.
      + apply withMachineFinalizer_elem. }
    split; [exact Hother|].
    destruct Hown as [Hsame | (stored & Hstored & Hpatched)]; [by left|].
    right. exists stored. by repeat split.
Qed.

(** X9.  The finalizer is added in memory before it is persisted.  When
    the patch fails (here: the control plane has no such object), the error
    comes back, the owner keeps the finalizer in memory, and a second
    [AddFinalizer] on the same scope returns nil without trying again. *)
Theorem AddFinalizer_failed_persist s w l h linodeMachine :
  scopeOk w s l h linodeMachine ->
  MachineFinalizer ∉ infrav1alpha1.GetFinalizers linodeMachine ->
  MachineFinalizer ∉ infrav1alpha1.GetFinalizers (patch.before h) ->
  linodeMachines (server w) !! ownerKey linodeMachine = None ->
  exists e w1,
    AddFinalizer s w = Some (Some e, w1)
    /\ server w1 = server w
    /\ hLinodeMachines (heap w1) !! l = Some (withMachineFinalizer linodeMachine)
    /\ writes w1 = S (writes w)
    /\ AddFinalizer s w1 = Some (None, w1).
Proof.
  intros Hok Hnin Hsnap Hgone. pose proof Hok as [Hl Ho Hh].
  set (updated := withMachineFinalizer linodeMachine).
  pose proof (AddFinalizer_appends _ _ _ _ _ Hok Hnin) as Hadd.
  unfold patchOutcome in Hadd.
  rewrite (diff_withMachineFinalizer _ _ Hsnap) in Hadd. fold updated in Hadd.
  assert (Hkey : ownerKey updated = ownerKey linodeMachine) by done.
  unfold patchError, persisted in Hadd. simpl in Hadd.
  rewrite Hkey, Hgone in Hadd.
  eexists _, _. split; [exact Hadd|].
  split; [done|].
  split; [simpl; apply lookup_insert_eq|].
  split.
  { unfold writes; cbn [calls].
    rewrite filter_app, length_app.
    rewrite filter_cons_True, filter_nil by done. simpl. lia. }
  apply (AddFinalizer_noop _ _ l h updated).
  - split; [done| |done]. simpl. apply lookup_insert_eq.
  - apply withMachineFinalizer_elem.
Qed.

(** *** Further properties of [GetBootstrapData] *)

(** X10.  [GetBootstrapData] keeps nothing: a second call returns the same
    result after fetching the secret again, and neither call changes any
    in-memory or stored object. *)
Theorem GetBootstrapData_refetches m w machine linodeMachine :
  pointee hMachines w (Scope.Machine m) = Some machine ->
  pointee hLinodeMachines w (Scope.LinodeMachine m) = Some linodeMachine ->
  exists r w1 w2,
    GetBootstrapData m w = Some (r, w1)
    /\ GetBootstrapData m w1 = Some (r, w2)
    /\ heap w2 = heap w /\ server w2 = server w
    /\ forall name,
         clusterv1.DataSecretName (clusterv1.Bootstrap_ (clusterv1.Spec machine)) = Some name ->
         calls w2
         = (calls w
            ++ [GetSecret (infrav1alpha1.GetNamespace linodeMachine, name);
                GetSecret (infrav1alpha1.GetNamespace linodeMachine, name)])%list.
Proof.
  intros Hm Hlm.
  pose proof (GetBootstrapData_run _ _ _ _ Hm Hlm) as H1.
  destruct (clusterv1.DataSecretName _) as [name|] eqn:Hname.
  - eexists _, _, _. split; [exact H1|].
    split.
    { rewrite (GetBootstrapData_run _ _ machine linodeMachine)
        by (by rewrite pointee_addCalls).
      by rewrite Hname. }
    simpl. split; [done|]. split; [done|].
    intros name' [= <-]. by rewrite <- app_assoc.
  - eexists _, _, _. split; [exact H1|].
    split.
    { rewrite (GetBootstrapData_run _ _ machine linodeMachine) by done.
      by rewrite Hname. }
    by repeat split.
Qed.

(** X11.  [GetBootstrapData] returns a nil error exactly when the Machine
    names a bootstrap secret, that secret exists in the [LinodeMachine]'s
    namespace and it has a "value" key; what it returns then is the stored
    value as it is, empty or not. *)
Theorem GetBootstrapData_succeeds_iff m w machine linodeMachine r w' :
  pointee hMachines w (Scope.Machine m) = Some machine ->
  pointee hLinodeMachines w (Scope.LinodeMachine m) = Some linodeMachine ->
  GetBootstrapData m w = Some (r, w') ->
  (r.2 = None
   <-> exists name secret,
         clusterv1.DataSecretName (clusterv1.Bootstrap_ (clusterv1.Spec machine)) = Some name
         /\ secrets (server w) !! (infrav1alpha1.GetNamespace linodeMachine, name)
            = Some secret
         /\ corev1.Data secret !! "value" = Some r.1).
Proof.
  intros Hm Hlm Hrun.
  rewrite (GetBootstrapData_run _ _ _ _ Hm Hlm) in Hrun.
  unfold infrav1alpha1.GetNamespace.
  destruct (clusterv1.DataSecretName _) as [name|].
  - injection Hrun as <- _. unfold bootstrapResult.
    destruct (secrets (server w) !! _) as [secret|] eqn:Hs.
    + destruct (corev1.Data secret !! "value") as [value|] eqn:Hv; simpl.
      * split; [|done]. intros _. exists name, secret. by repeat split.
      * split; [done|]. intros (name' & secret' & [= <-] & Hs' & Hv').
        rewrite Hs in Hs'. injection Hs' as <-. congruence.
    + simpl. split; [done|]. intros (name' & secret' & [= <-] & Hs' & _).
      congruence.
  - injection Hrun as <- _. simpl. split; [done|].
    intros (name & secret & Hname & _). discriminate Hname.
Qed.

(** *** Further properties of the credential-protection finalizer *)

(** The secrets a list of calls reads or updates. *)
Definition secretKeys (cs : list Call) : list ObjectKey :=
  omap (fun c => match c with
                 | GetSecret key | UpdateSecret key _ => Some key
                 | _ => None
                 end) cs.

Lemma secretUpdate_calls key f w :
  exists cs, calls (secretUpdate key f w).2 = (calls w ++ cs)%list
             /\ secretKeys cs <> [] /\ Forall (eq key) (secretKeys cs).
Proof.
  unfold secretUpdate. destruct (secrets (server w) !! key) as [secret|].
  - eexists. split; [reflexivity|]. split; [done|]. by repeat constructor.
  - eexists. split; [reflexivity|]. split; [done|]. by repeat constructor.
Qed.

(** X12.  With an override on the [LinodeMachine], construction and the
    two finalizer operations agree on the secret: the one [NewMachineScope]
    reads the credentials from is the one [AddCredentialsRefFinalizer] and
    [RemoveCredentialsRefFinalizer] fetch and update, and none of them
    touches any other secret. *)
Theorem credentials_finalizer_on_the_secret_in_use
    apiKey dnsKey params w linodeMachine linodeCluster ref s :
  paramsOk w params linodeMachine linodeCluster ->
  infrav1alpha1.CredentialsRef (infrav1alpha1.Spec linodeMachine) = Some ref ->
  Scope.LinodeMachine s = Params.LinodeMachine params ->
  let key := secretKey ref (infrav1alpha1.GetNamespace linodeMachine) in
  let onlyKey (before after : World) :=
    exists cs, calls after = (calls before ++ cs)%list
               /\ secretKeys cs <> [] /\ Forall (eq key) (secretKeys cs) in
  exists r w1 e2 w2 e3 w3,
    NewMachineScope apiKey dnsKey params w = Some (r, w1) /\ onlyKey w w1
    /\ AddCredentialsRefFinalizer s w = Some (e2, w2) /\ onlyKey w w2
    /\ RemoveCredentialsRefFinalizer s w = Some (e3, w3) /\ onlyKey w w3.
Proof.
  intros Hok Href Hs key onlyKey.
  pose proof Hok as [_ _ _ Hlm].
  assert (Hadd : AddCredentialsRefFinalizer s w
                 = Some (secretUpdate key
                           (fun secret => controllerutil.AddFinalizerSecret secret
                                            (toFinalizer linodeMachine)) w)).
  { unfold AddCredentialsRefFinalizer. rewrite Hs.
    rewrite (bind_run _ _ _ _ _ (deref_run _ _ _ _ Hlm)), Href.
    apply addCredentialsFinalizer_run. }
  assert (Hrm : RemoveCredentialsRefFinalizer s w
                = Some (secretUpdate key
                          (fun secret => controllerutil.RemoveFinalizerSecret secret
                                           (toFinalizer linodeMachine)) w)).
  { unfold RemoveCredentialsRefFinalizer. rewrite Hs.
    rewrite (bind_run _ _ _ _ _ (deref_run _ _ _ _ Hlm)), Href.
    apply removeCredentialsFinalizer_run. }
  pose proof (secretUpdate_calls key
                (fun secret => controllerutil.AddFinalizerSecret secret
                                 (toFinalizer linodeMachine)) w) as Hc2.
  pose proof (secretUpdate_calls key
                (fun secret => controllerutil.RemoveFinalizerSecret secret
                                 (toFinalizer linodeMachine)) w) as Hc3.
  destruct (secretUpdate key (fun secret => controllerutil.AddFinalizerSecret _ _) w)
    as [e2 w2].
  destruct (secretUpdate key (fun secret => controllerutil.RemoveFinalizerSecret _ _) w)
    as [e3 w3].
  eexists _, _, e2, w2, e3, w3.
  split; [apply (NewMachineScope_run apiKey dnsKey _ _ _ _ Hok)|].
  split.
  { unfold onlyKey, ownerOverride, precedence. rewrite Href. simpl.
    eexists. split; [reflexivity|].
    unfold resolveCalls, resolve, fromSecret, factoryCalls. simpl. fold key.
    destruct (credentialData (server w) key "apiToken") as [X [e|]].
    - split; [done|]. by repeat constructor.
    - destruct (credentialData (server w) key "dnsToken") as [Y [e|]];
        [|destruct (decide (len Y = 0))];
        (destruct (validToken (string_of X));
         (split; [done|]; by repeat constructor)). }
  split; [exact Hadd|]. split; [exact Hc2|]. split; [exact Hrm|]. exact Hc3.
Qed.

Lemma secretUpdate_frame key f w :
  (forall secret, corev1.Data (f secret) = corev1.Data secret) ->
  heap (secretUpdate key f w).2 = heap w
  /\ linodeMachines (server (secretUpdate key f w).2) = linodeMachines (server w)
  /\ forall k,
       match secrets (server w) !! k with
       | None => secrets (server (secretUpdate key f w).2) !! k = None
       | Some secret =>
           exists secret',
             secrets (server (secretUpdate key f w).2) !! k = Some secret'
             /\ corev1.Data secret' = corev1.Data secret
       end.
Proof.
  intros Hf. unfold secretUpdate.
  destruct (secrets (server w) !! key) as [secret|] eqn:Hkey; simpl.
  - split; [done|]. split; [done|]. intros k.
    destruct (decide (k = key)) as [->|Hne].
    + rewrite Hkey, lookup_insert_eq. eexists. split; [done|]. apply Hf.
    + rewrite lookup_insert_ne by congruence.
      destruct (secrets (server w) !! k) as [sk|]; [|done]. by exists sk.
  - split; [done|]. split; [done|]. intros k.
    destruct (secrets (server w) !! k) as [sk|]; [|done]. by exists sk.
Qed.

(** X13.  The two finalizer operations leave every in-memory object and
    every stored [LinodeMachine] alone, and they neither create nor delete
    a secret nor change the data of one: whatever they write, each secret
    still holds the keys and values it held. *)
Theorem CredentialsRefFinalizer_frame s w linodeMachine e w1 :
  pointee hLinodeMachines w (Scope.LinodeMachine s) = Some linodeMachine ->
  AddCredentialsRefFinalizer s w = Some (e, w1)
  \/ RemoveCredentialsRefFinalizer s w = Some (e, w1) ->
  heap w1 = heap w
  /\ linodeMachines (server w1) = linodeMachines (server w)
  /\ forall k,
       match secrets (server w) !! k with
       | None => secrets (server w1) !! k = None
       | Some secret =>
           exists secret',
             secrets (server w1) !! k = Some secret'
             /\ corev1.Data secret' = corev1.Data secret
       end.
Proof.
  intros Hlm Hrun.
  assert (Hsame : heap w = heap w /\ linodeMachines (server w) = linodeMachines (server w)
                  /\ forall k,
                       match secrets (server w) !! k with
                       | None => secrets (server w) !! k = None
                       | Some secret =>
                           exists secret',
                             secrets (server w) !! k = Some secret'
                             /\ corev1.Data secret' = corev1.Data secret
                       end).
  { split; [done|]. split; [done|]. intros k.
    destruct (secrets (server w) !! k) as [sk|]; [|done]. by exists sk. }
  unfold AddCredentialsRefFinalizer, RemoveCredentialsRefFinalizer in Hrun.
  rewrite !(bind_run _ _ _ _ _ (deref_run _ _ _ _ Hlm)) in Hrun.
  destruct (infrav1alpha1.CredentialsRef (infrav1alpha1.Spec linodeMachine)) as [ref|].
  - rewrite addCredentialsFinalizer_run, removeCredentialsFinalizer_run in Hrun.
    destruct Hrun as [Hrun|Hrun]; injection Hrun as Hrun;
      apply (f_equal snd) in Hrun; simpl in Hrun; subst w1;
      apply secretUpdate_frame; intros secret.
    + unfold controllerutil.AddFinalizerSecret. by destruct (decide _).
    + done.
  - destruct Hrun as [Hrun|Hrun]; injection Hrun as _ <-; exact Hsame.
Qed.

Lemma filter_out_last (t : string) (l : list string) :
  t ∉ l -> filter (fun f => f <> t) (l ++ [t])%list = l.
Proof.
  intros Hn. rewrite filter_app.
  rewrite (filter_cons_False _ t) by (intros H; by apply H).
  rewrite filter_nil, app_nil_r.
  induction l as [|x l IH]; [done|].
  apply not_elem_of_cons in Hn as [Hne Hn].
  rewrite filter_cons_True by congruence. by rewrite IH.
Qed.

Lemma RemoveFinalizerSecret_AddFinalizerSecret secret finalizer :
  finalizer ∉ metav1.Finalizers (corev1.ObjectMeta secret) ->
  controllerutil.RemoveFinalizerSecret
    (controllerutil.AddFinalizerSecret secret finalizer) finalizer = secret.
Proof.
  intros Hn. destruct secret as [[name ns fs] data]. simpl in Hn.
  unfold controllerutil.RemoveFinalizerSecret, controllerutil.AddFinalizerSecret. simpl.
  rewrite decide_False by done. simpl.
  unfold metav1.withFinalizers. simpl. by rewrite filter_out_last.
Qed.

(** X14.  Release undoes protect: on a secret that does not yet carry this
    machine's finalizer, [AddCredentialsRefFinalizer] followed by
    [RemoveCredentialsRefFinalizer] both succeed and leave the control
    plane exactly as it was. *)
Theorem CredentialsRefFinalizer_add_then_remove s w linodeMachine ref secret :
  pointee hLinodeMachines w (Scope.LinodeMachine s) = Some linodeMachine ->
  infrav1alpha1.CredentialsRef (infrav1alpha1.Spec linodeMachine) = Some ref ->
  secrets (server w) !! secretKey ref (infrav1alpha1.GetNamespace linodeMachine)
  = Some secret ->
  toFinalizer linodeMachine ∉ metav1.Finalizers (corev1.ObjectMeta secret) ->
  exists w1 w2,
    AddCredentialsRefFinalizer s w = Some (None, w1)
    /\ (exists secret1,
          secrets (server w1) !! secretKey ref (infrav1alpha1.GetNamespace linodeMachine)
          = Some secret1
          /\ toFinalizer linodeMachine ∈ metav1.Finalizers (corev1.ObjectMeta secret1))
    /\ RemoveCredentialsRefFinalizer s w1 = Some (None, w2)
    /\ server w2 = server w /\ heap w2 = heap w.
Proof.
  intros Hlm Href Hsecret Hnin.
  set (key := secretKey ref (infrav1alpha1.GetNamespace linodeMachine)) in *.
  set (fin := toFinalizer linodeMachine) in *.
  set (w1 := {| heap := heap w;
                server := {| secrets := <[key := controllerutil.AddFinalizerSecret secret fin]>
                                          (secrets (server w));
                             linodeMachines := linodeMachines (server w) |};
                calls := calls w
                         ++ [GetSecret key;
                             UpdateSecret key (controllerutil.AddFinalizerSecret secret fin)] |}).
  assert (Hadd : AddCredentialsRefFinalizer s w = Some (None, w1)).
  { unfold AddCredentialsRefFinalizer.
    rewrite (bind_run _ _ _ _ _ (deref_run _ _ _ _ Hlm)), Href.
    rewrite addCredentialsFinalizer_run. unfold secretUpdate. fold key fin.
    by rewrite Hsecret. }
  assert (Hlm1 : pointee hLinodeMachines w1 (Scope.LinodeMachine s) = Some linodeMachine).
  { by destruct (Scope.LinodeMachine s). }
  eexists w1, _. split; [exact Hadd|].
  split.
  { eexists. split; [simpl; apply lookup_insert_eq|].
    unfold controllerutil.AddFinalizerSecret. rewrite decide_False by done. simpl.
    apply elem_of_app. right. by left. }
  split.
  { unfold RemoveCredentialsRefFinalizer.
    rewrite (bind_run _ _ _ _ _ (deref_run _ _ _ _ Hlm1)), Href.
    rewrite removeCredentialsFinalizer_run. unfold secretUpdate. fold key fin.
    simpl. rewrite lookup_insert_eq. reflexivity. }
  simpl. split; [|done].
  rewrite (RemoveFinalizerSecret_AddFinalizerSecret _ _ Hnin).
  rewrite insert_insert_eq, (insert_id _ _ _ Hsecret).
  by destruct (server w).
Qed.

(** *** What a built scope holds *)

(** X15.  A scope that [NewMachineScope] returns holds the very client and
    the very four references it was given, none of them nil, a patch
    helper, and two Linode clients, each built with the default timeout
    and a retry count of zero from a token the factory accepted. *)
Theorem NewMachineScope_scope_fields apiKey dnsKey params w s w' :
  paramsAllocated w params ->
  NewMachineScope apiKey dnsKey params w = Some ((Some s, None), w') ->
  Scope.Client s = Params.Client params
  /\ (Scope.Cluster s = Params.Cluster params /\ Scope.Cluster s <> None)
  /\ (Scope.Machine s = Params.Machine params /\ Scope.Machine s <> None)
  /\ (Scope.LinodeCluster s = Params.LinodeCluster params /\ Scope.LinodeCluster s <> None)
  /\ (Scope.LinodeMachine s = Params.LinodeMachine params /\ Scope.LinodeMachine s <> None)
  /\ Scope.PatchHelper s <> None
  /\ exists primary secondary,
       Scope.LinodeClient s
       = Some {| clients.token := primary;
                 clients.timeout := defaultClientTimeout;
                 clients.options := [clients.WithRetryCount 0] |}
       /\ Scope.LinodeDomainsClient s
          = Some {| clients.token := secondary;
                    clients.timeout := defaultClientTimeout;
                    clients.options := [clients.WithRetryCount 0] |}
       /\ validToken primary = true /\ validToken secondary = true.
Proof.
  intros Halloc Hrun.
  destruct (validateMachineScopeParams params) as [e|] eqn:Hv.
  { unfold NewMachineScope in Hrun. rewrite Hv in Hrun. discriminate Hrun. }
  destruct (allocated_paramsOk _ _ Halloc Hv) as (lm & lc & Hok).
  rewrite (NewMachineScope_run apiKey dnsKey _ _ _ _ Hok) in Hrun.
  injection Hrun as Hres _. unfold assemble in Hres.
  destruct (resolve _ _ _ _) as [e|a d]; [discriminate Hres|].
  destruct (validToken a) eqn:Ha, (validToken d) eqn:Hd; try discriminate Hres.
  injection Hres as <-. simpl.
  unfold validateMachineScopeParams in Hv.
  destruct params as [c [cl|] [m|] [plc|] [plm|]]; simpl in *; try discriminate Hv.
  do 6 (split; [done|]). by exists a, d.
Qed.

(** X16.  A selected secret whose "apiToken" value the client factory
    rejects (an empty one, say) makes construction fail at the first
    client: the secret has been read twice by then, the domains client is
    never built, and a usable "dnsToken" in the same secret does not
    help. *)
Theorem NewMachineScope_unusable_apiToken
    apiKey dnsKey params w linodeMachine linodeCluster ref ns secret X :
  paramsOk w params linodeMachine linodeCluster ->
  selectedOverride linodeMachine linodeCluster = Some (ref, ns) ->
  secrets (server w) !! secretKey ref ns = Some secret ->
  corev1.Data secret !! "apiToken" = Some X ->
  validToken (string_of X) = false ->
  exists e,
    NewMachineScope apiKey dnsKey params w
    = Some ((None, Some (wrapf "failed to create linode client" e)),
            addCalls [GetSecret (secretKey ref ns); GetSecret (secretKey ref ns);
                      NewLinodeClient (string_of X)] w).
Proof.
  intros Hok Hsel Hsecret HX Hbad.
  rewrite (NewMachineScope_run apiKey dnsKey _ _ _ _ Hok).
  unfold selectedOverride in Hsel. rewrite Hsel.
  unfold resolve, resolveCalls, fromSecret, credentialData. simpl.
  rewrite Hsecret, HX. simpl.
  destruct (corev1.Data secret !! "dnsToken") as [Y|]; simpl;
    [destruct (decide (len Y = 0))|];
    unfold assemble, factoryCalls; rewrite Hbad; simpl; by eexists.
Qed.

End MachineScope.

(** ** A worked reconcile: the owner has no credential override, its
    LinodeCluster refers to a secret holding only [apiToken = "abc"] *)

Definition exMachineFinalizer : string := "linodemachine.infrastructure.cluster.x-k8s.io".
Definition exTimeout : Z := 10000000000.
Definition exValidToken (t : string) : bool := bool_decide (t <> "").
Definition exFinalizerFormat (kind ns name : string) : string :=
  kind +:+ "/" +:+ ns +:+ "." +:+ name.

Definition exMeta (ns name : string) : metav1.ObjectMeta :=
  {| metav1.Name := name; metav1.Namespace := ns; metav1.Finalizers := [] |}.

Definition exCredentials : corev1.SecretReference :=
  {| corev1.Name := "creds"; corev1.Namespace := "" |}.

Definition exCluster : clusterv1.Cluster :=
  {| clusterv1.ClusterMeta := exMeta "ns1" "cluster" |}.

Definition exMachine : clusterv1.Machine :=
  {| clusterv1.ObjectMeta := exMeta "capi-system" "machine";
     clusterv1.Spec :=
       {| clusterv1.Bootstrap_ := {| clusterv1.DataSecretName := Some "bootstrap" |} |} |}.

Definition exLinodeCluster : infrav1alpha2.LinodeCluster :=
  {| infrav1alpha2.ObjectMeta := exMeta "ns1" "linode-cluster";
     infrav1alpha2.Spec := {| infrav1alpha2.CredentialsRef := Some exCredentials |} |}.

Definition exLinodeMachine : infrav1alpha1.LinodeMachine :=
  {| infrav1alpha1.ObjectMeta := exMeta "ns1" "linode-machine";
     infrav1alpha1.Spec := {| infrav1alpha1.CredentialsRef := None |};
     infrav1alpha1.Status := {| infrav1alpha1.Ready := false |} |}.

(** A second machine, with a credential override of its own. *)
Definition exOverridden : infrav1alpha1.LinodeMachine :=
  {| infrav1alpha1.ObjectMeta := exMeta "ns1" "overridden";
     infrav1alpha1.Spec := {| infrav1alpha1.CredentialsRef := Some exCredentials |};
     infrav1alpha1.Status := {| infrav1alpha1.Ready := false |} |}.

Definition abc : byteslice := Slice [x61; x62; x63].

Definition exSecret : corev1.Secret :=
  {| corev1.ObjectMeta := exMeta "ns1" "creds";
     corev1.Data := {[ "apiToken" := abc ]} |}.

Definition exBootstrap : corev1.Secret :=
  {| corev1.ObjectMeta := exMeta "ns1" "bootstrap";
     corev1.Data := {[ "value" := Slice [x23; x21] ]} |}.

Definition exHeap : Heap :=
  {| hClusters := {[ 1%positive := exCluster ]};
     hMachines := {[ 2%positive := exMachine ]};
     hLinodeClusters := {[ 3%positive := exLinodeCluster ]};
     hLinodeMachines := {[ 4%positive := exLinodeMachine; 5%positive := exOverridden ]} |}.

Definition exServer : ApiServer :=
  {| secrets := {[ ("ns1", "creds") := exSecret; ("ns1", "bootstrap") := exBootstrap ]};
     linodeMachines := {[ ("ns1", "linode-machine") := exLinodeMachine;
                          ("ns1", "overridden") := exOverridden ]} |}.

Definition exWorld : World := {| heap := exHeap; server := exServer; calls := [] |}.

Definition exParams : Params.MachineScopeParams :=
  {| Params.Client := controlPlane;
     Params.Cluster := Some 1%positive;
     Params.Machine := Some 2%positive;
     Params.LinodeCluster := Some 3%positive;
     Params.LinodeMachine := Some 4%positive |}.

Definition exClient (t : string) : clients.LinodeClient :=
  {| clients.token := t;
     clients.timeout := exTimeout;
     clients.options := [clients.WithRetryCount 0] |}.

(** The scope [NewMachineScope] builds from [exParams]. *)
Definition exScope : Scope.MachineScope :=
  {| Scope.Client := controlPlane;
     Scope.PatchHelper := Some {| patch.client := controlPlane;
                                  patch.before := exLinodeMachine |};
     Scope.Cluster := Some 1%positive;
     Scope.Machine := Some 2%positive;
     Scope.LinodeClient := Some (exClient "abc");
     Scope.LinodeDomainsClient := Some (exClient "abc");
     Scope.LinodeCluster := Some 3%positive;
     Scope.LinodeMachine := Some 4%positive |}.

(** The scope of the machine with its own override. *)
Definition exScopeOverridden : Scope.MachineScope :=
  {| Scope.Client := controlPlane;
     Scope.PatchHelper := Some {| patch.client := controlPlane;
                                  patch.before := exOverridden |};
     Scope.Cluster := Some 1%positive;
     Scope.Machine := Some 2%positive;
     Scope.LinodeClient := Some (exClient "abc");
     Scope.LinodeDomainsClient := Some (exClient "abc");
     Scope.LinodeCluster := Some 3%positive;
     Scope.LinodeMachine := Some 5%positive |}.

(** The world once the scope has been built. *)
Definition exBuilt : World :=
  addCalls [GetSecret ("ns1", "creds"); GetSecret ("ns1", "creds");
            NewLinodeClient "abc"; NewLinodeClient "abc"] exWorld.

Example NewMachineScope_example :
  NewMachineScope exTimeout exValidToken "controller-key" "controller-dns" exParams exWorld
  = Some ((Some exScope, None), exBuilt).
Proof. vm_compute. reflexivity. Qed.

Lemma exParams_ok : paramsOk exWorld exParams exLinodeMachine exLinodeCluster.
Proof. split; [by eexists | by eexists | done | done]. Defined.

Lemma exScope_ok :
  scopeOk exBuilt exScope 4%positive
    {| patch.client := controlPlane; patch.before := exLinodeMachine |} exLinodeMachine.
Proof. split; done. Defined.

(** *** The theorems at the worked reconcile *)

Lemma NewMachineScope_credential_precedence_witness :
  paramsOk exWorld exParams exLinodeMachine exLinodeCluster
  /\ NewMachineScope exTimeout exValidToken "controller-key" "controller-dns" exParams exWorld
     = Some ((Some exScope, None), exBuilt).
Proof.
  split; [exact exParams_ok|].
  exact (NewMachineScope_credential_precedence exTimeout exValidToken
           "controller-key" "controller-dns" exParams exWorld
           exLinodeMachine exLinodeCluster exParams_ok).
Defined.

Lemma NewMachineScope_dnsToken_fallback_witness :
  paramsOk exWorld exParams exLinodeMachine exLinodeCluster
  /\ selectedOverride exLinodeMachine exLinodeCluster = Some (exCredentials, "ns1")
  /\ secrets (server exWorld) !! secretKey exCredentials "ns1" = Some exSecret
  /\ corev1.Data exSecret !! "apiToken" = Some abc
  /\ corev1.Data exSecret !! "dnsToken" = None
  /\ NewMachineScope exTimeout exValidToken "controller-key" "controller-dns" exParams exWorld
     = Some ((Some exScope, None), exBuilt).
Proof.
  split; [exact exParams_ok|]. do 4 (split; [reflexivity|]).
  exact (proj1 (NewMachineScope_dnsToken_fallback exTimeout exValidToken
                  "controller-key" "controller-dns" exParams exWorld
                  exLinodeMachine exLinodeCluster exCredentials "ns1" exSecret abc
                  exParams_ok eq_refl eq_refl eq_refl)
               (or_introl eq_refl)).
Defined.

(** The scenario "construction with machine = nil". *)
Definition exNoMachine : Params.MachineScopeParams :=
  {| Params.Client := controlPlane;
     Params.Cluster := Some 1%positive;
     Params.Machine := None;
     Params.LinodeCluster := Some 3%positive;
     Params.LinodeMachine := Some 4%positive |}.

Lemma NewMachineScope_missing_field_witness :
  Params.Machine exNoMachine = None
  /\ (exists field,
        absent exNoMachine field
        /\ NewMachineScope exTimeout exValidToken "controller-key" "controller-dns"
             exNoMachine exWorld
           = Some ((None, Some (field +:+ " is required when creating a MachineScope")),
                   exWorld)).
Proof.
  split; [reflexivity|].
  exact (proj1 (NewMachineScope_missing_field exTimeout exValidToken
                  "controller-key" "controller-dns" exNoMachine exWorld
                  (or_intror (or_introl eq_refl)))).
Defined.

(** The world after the first [AddFinalizer]. *)
Definition exFinalized : World :=
  let updated := infrav1alpha1.SetFinalizers [exMachineFinalizer] exLinodeMachine in
  persisted ("ns1", "linode-machine")
    (patch.diff exLinodeMachine updated) (setOwner 4%positive updated exBuilt).

Lemma exMachineFinalizer_absent :
  exMachineFinalizer ∉ infrav1alpha1.GetFinalizers exLinodeMachine.
Proof. apply not_elem_of_nil. Defined.









Lemma exScopeOverridden_ok :
  pointee hLinodeMachines exWorld (Scope.LinodeMachine exScopeOverridden) = Some exOverridden.
Proof. reflexivity. Defined.

Lemma CredentialsRefFinalizer_override_witness :
  pointee hLinodeMachines exWorld (Scope.LinodeMachine exScopeOverridden) = Some exOverridden
  /\ AddCredentialsRefFinalizer exFinalizerFormat exScopeOverridden exWorld
     = Some (secretUpdate ("ns1", "creds")
               (fun secret =>
                  controllerutil.AddFinalizerSecret secret "LinodeMachine/ns1.overridden")
               exWorld).
Proof.
  split; [exact exScopeOverridden_ok|].
  exact (proj1 (CredentialsRefFinalizer_override exFinalizerFormat exScopeOverridden
                  exWorld exOverridden exScopeOverridden_ok)).
Defined.

Lemma exScope_machine : pointee hMachines exBuilt (Scope.Machine exScope) = Some exMachine.
Proof. reflexivity. Defined.

Lemma exScope_owner :
  pointee hLinodeMachines exBuilt (Scope.LinodeMachine exScope) = Some exLinodeMachine.
Proof. reflexivity. Defined.

Lemma GetBootstrapData_error_kinds_witness :
  pointee hMachines exBuilt (Scope.Machine exScope) = Some exMachine
  /\ pointee hLinodeMachines exBuilt (Scope.LinodeMachine exScope) = Some exLinodeMachine
  /\ missingReference exLinodeMachine <> secretNotFound exLinodeMachine
  /\ missingReference exLinodeMachine <> payloadMissing exLinodeMachine
  /\ secretNotFound exLinodeMachine <> payloadMissing exLinodeMachine.
Proof.
  split; [exact exScope_machine|]. split; [exact exScope_owner|].
  exact (proj1 (GetBootstrapData_error_kinds exScope exBuilt exMachine exLinodeMachine
                  exScope_machine exScope_owner)).
Defined.

Lemma exParams_allocated : paramsAllocated exWorld exParams.
Proof. split; by eexists. Defined.

Lemma NewMachineScope_frame_witness :
  paramsAllocated exWorld exParams
  /\ exists r w',
       NewMachineScope exTimeout exValidToken "controller-key" "controller-dns"
         exParams exWorld = Some (r, w')
       /\ heap w' = heap exWorld /\ server w' = server exWorld
       /\ exists cs, calls w' = (calls exWorld ++ cs)%list
                     /\ Forall (fun c => isWrite c = false) cs.
Proof.
  split; [exact exParams_allocated|].
  exact (NewMachineScope_frame exTimeout exValidToken "controller-key" "controller-dns"
           exParams exWorld exParams_allocated).
Defined.

Lemma GetBootstrapData_key_and_empty_slice_witness :
  pointee hMachines exBuilt (Scope.Machine exScope) = Some exMachine
  /\ pointee hLinodeMachines exBuilt (Scope.LinodeMachine exScope) = Some exLinodeMachine
  /\ exists r w',
       GetBootstrapData exScope exBuilt = Some (r, w')
       /\ (r.2 <> None -> r.1 = Slice [] /\ isNil r.1 = false /\ len r.1 = 0)
       /\ calls w' = (calls exBuilt ++ [GetSecret ("ns1", "bootstrap")])%list.
Proof.
  split; [exact exScope_machine|]. split; [exact exScope_owner|].
  exact (GetBootstrapData_key_and_empty_slice exScope exBuilt exMachine exLinodeMachine
           exScope_machine exScope_owner).
Defined.

Lemma no_method_removes_a_finalizer_witness :
  scopeOk exBuilt exScope 4%positive
    {| patch.client := controlPlane; patch.before := exLinodeMachine |} exLinodeMachine
  /\ pointee hMachines exBuilt (Scope.Machine exScope) = Some exMachine
  /\ exists w',
       invoke exMachineFinalizer exFinalizerFormat MAddFinalizer exScope exBuilt
       = Some (tt, w')
       /\ finalizersKept (heap exBuilt) (heap w').
Proof.
  split; [exact exScope_ok|]. split; [exact exScope_machine|].
  exact (no_method_removes_a_finalizer exMachineFinalizer exFinalizerFormat MAddFinalizer
           exScope exBuilt 4%positive _ exLinodeMachine exMachine
           exScope_ok exScope_machine).
Defined.

(** With the machine finalizer on the owner (and persisted), no method of
    the scope takes it off again. *)
Lemma removeFinalizer_counterexample :
  hLinodeMachines (heap exFinalized) !! 4%positive
  = Some (infrav1alpha1.SetFinalizers [exMachineFinalizer] exLinodeMachine)
  /\ ~ exists meth w' o,
        invoke exMachineFinalizer exFinalizerFormat meth exScope exFinalized = Some (tt, w')
        /\ hLinodeMachines (heap w') !! 4%positive = Some o
        /\ exMachineFinalizer ∉ infrav1alpha1.GetFinalizers o.
Proof.
  split; [reflexivity|].
  intros (meth & w' & o & Hrun & Ho & Hnot).
  apply Hnot. clear Hnot.
  destruct meth; vm_compute in Hrun; injection Hrun as <-;
    vm_compute in Ho; injection Ho as <-; by left.
Qed.

(** *** The further properties at the worked reconcile *)

Lemma validateMachineScopeParams_first_absent_witness :
  Params.Cluster exNoMachine <> None
  /\ Params.Machine exNoMachine = None
  /\ validateMachineScopeParams exNoMachine
     = Some "machine is required when creating a MachineScope".
Proof.
  assert (Hc : Params.Cluster exNoMachine <> None) by discriminate.
  split; [exact Hc|]. split; [reflexivity|].
  exact (proj1 (proj2 (proj2 (validateMachineScopeParams_first_absent exNoMachine)))
           Hc eq_refl).
Defined.

(** The same control plane without the credentials secret. *)
Definition exNoSecret : World :=
  {| heap := exHeap;
     server := {| secrets := {[ ("ns1", "bootstrap") := exBootstrap ]};
                  linodeMachines := linodeMachines exServer |};
     calls := [] |}.

Lemma exNoSecret_ok : paramsOk exNoSecret exParams exLinodeMachine exLinodeCluster.
Proof. split; [by eexists | by eexists | done | done]. Defined.

Lemma NewMachineScope_lookup_error_witness :
  paramsOk exNoSecret exParams exLinodeMachine exLinodeCluster
  /\ selectedOverride exLinodeMachine exLinodeCluster = Some (exCredentials, "ns1")
  /\ secrets (server exNoSecret) !! secretKey exCredentials "ns1" = None
  /\ exists msg,
       NewMachineScope exTimeout exValidToken "controller-key" "controller-dns"
         exParams exNoSecret
       = Some ((None, Some (wrapf "credentials from secret ref" msg)),
               addCalls [GetSecret (secretKey exCredentials "ns1")] exNoSecret).
Proof.
  split; [exact exNoSecret_ok|]. split; [reflexivity|]. split; [reflexivity|].
  exact (NewMachineScope_lookup_error exTimeout exValidToken
           "controller-key" "controller-dns" exParams exNoSecret
           exLinodeMachine exLinodeCluster exCredentials "ns1"
           exNoSecret_ok eq_refl (or_introl eq_refl)).
Defined.

Lemma NewMachineScope_ignores_defaults_witness :
  paramsOk exWorld exParams exLinodeMachine exLinodeCluster
  /\ selectedOverride exLinodeMachine exLinodeCluster = Some (exCredentials, "ns1")
  /\ NewMachineScope exTimeout exValidToken "controller-key" "controller-dns"
       exParams exWorld
     = NewMachineScope exTimeout exValidToken "" "" exParams exWorld.
Proof.
  split; [exact exParams_ok|]. split; [reflexivity|].
  exact (NewMachineScope_ignores_defaults exTimeout exValidToken
           "controller-key" "controller-dns" "" "" exParams exWorld
           exLinodeMachine exLinodeCluster (exCredentials, "ns1")
           exParams_ok eq_refl).
Defined.

(** A LinodeCluster without credentials of its own. *)
Definition exPlainCluster : infrav1alpha2.LinodeCluster :=
  {| infrav1alpha2.ObjectMeta := exMeta "ns1" "linode-cluster";
     infrav1alpha2.Spec := {| infrav1alpha2.CredentialsRef := None |} |}.

Definition exPlain : World :=
  {| heap := {| hClusters := hClusters exHeap;
                hMachines := hMachines exHeap;
                hLinodeClusters := {[ 3%positive := exPlainCluster ]};
                hLinodeMachines := hLinodeMachines exHeap |};
     server := exServer;
     calls := [] |}.

Lemma exPlain_ok : paramsOk exPlain exParams exLinodeMachine exPlainCluster.
Proof. split; [by eexists | by eexists | done | done]. Defined.

Lemma NewMachineScope_default_dnsKey_no_fallback_witness :
  paramsOk exPlain exParams exLinodeMachine exPlainCluster
  /\ selectedOverride exLinodeMachine exPlainCluster = None
  /\ exValidToken "controller-key" = true
  /\ exValidToken "" = false
  /\ exists e,
       NewMachineScope exTimeout exValidToken "controller-key" "" exParams exPlain
       = Some ((None, Some (wrapf "failed to create linode client" e)),
               addCalls [NewLinodeClient "controller-key"; NewLinodeClient ""] exPlain).
Proof.
  split; [exact exPlain_ok|]. do 3 (split; [reflexivity|]).
  exact (NewMachineScope_default_dnsKey_no_fallback exTimeout exValidToken
           "controller-key" "" exParams exPlain exLinodeMachine exPlainCluster
           exPlain_ok eq_refl eq_refl eq_refl).
Defined.

Lemma exBuilt_run :
  NewMachineScope exTimeout exValidToken "controller-key" "controller-dns" exParams exWorld
  = Some ((Some exScope, None), exBuilt).
Proof. vm_compute. reflexivity. Defined.

Lemma Close_after_NewMachineScope_witness :
  paramsAllocated exWorld exParams
  /\ NewMachineScope exTimeout exValidToken "controller-key" "controller-dns"
       exParams exWorld
     = Some ((Some exScope, None), exBuilt)
  /\ Close exScope exBuilt = Some (None, exBuilt)
  /\ PatchObject exScope exBuilt = Some (None, exBuilt).
Proof.
  split; [exact exParams_allocated|]. split; [exact exBuilt_run|].
  exact (Close_after_NewMachineScope exTimeout exValidToken
           "controller-key" "controller-dns" exParams exWorld exScope exBuilt
           exParams_allocated exBuilt_run).
Defined.

Lemma AddFinalizer_after_NewMachineScope_witness :
  paramsAllocated exWorld exParams
  /\ Params.LinodeMachine exParams = Some 4%positive
  /\ hLinodeMachines (heap exWorld) !! 4%positive = Some exLinodeMachine
  /\ (exMachineFinalizer ∉ infrav1alpha1.GetFinalizers exLinodeMachine)
  /\ exists err w1,
       AddFinalizer exMachineFinalizer exScope exBuilt = Some (err, w1)
       /\ hLinodeMachines (heap w1) !! 4%positive
          = Some (withMachineFinalizer exMachineFinalizer exLinodeMachine)
       /\ writes w1 = S (writes exBuilt)
       /\ AddFinalizer exMachineFinalizer exScope w1 = Some (None, w1).
Proof.
  split; [exact exParams_allocated|]. do 2 (split; [reflexivity|]).
  split; [exact exMachineFinalizer_absent|].
  exact (AddFinalizer_after_NewMachineScope exMachineFinalizer exTimeout exValidToken
           "controller-key" "controller-dns" exParams exWorld exScope exBuilt
           4%positive exLinodeMachine
           exParams_allocated exBuilt_run eq_refl eq_refl exMachineFinalizer_absent).
Defined.

Lemma methods_return_after_NewMachineScope_witness :
  paramsAllocated exWorld exParams
  /\ exists w'',
       invoke exMachineFinalizer exFinalizerFormat MGetBootstrapData exScope exBuilt
       = Some (tt, w'').
Proof.
  split; [exact exParams_allocated|].
  exact (methods_return_after_NewMachineScope exMachineFinalizer exTimeout exValidToken
           exFinalizerFormat "controller-key" "controller-dns" exParams exWorld
           exScope exBuilt MGetBootstrapData exParams_allocated exBuilt_run).
Defined.

Lemma exFinalized_run :
  AddFinalizer exMachineFinalizer exScope exBuilt = Some (None, exFinalized).
Proof. vm_compute. reflexivity. Defined.

(** The reconciler has marked the machine ready in memory, after the scope
    was built and before it adds the finalizer. *)
Definition exReadyMachine : infrav1alpha1.LinodeMachine :=
  {| infrav1alpha1.ObjectMeta := infrav1alpha1.ObjectMeta exLinodeMachine;
     infrav1alpha1.Spec := infrav1alpha1.Spec exLinodeMachine;
     infrav1alpha1.Status := {| infrav1alpha1.Ready := true |} |}.

Definition exMarkedReady : World := setOwner 4%positive exReadyMachine exBuilt.

Definition exReadyFinalized : World :=
  let updated := withMachineFinalizer exMachineFinalizer exReadyMachine in
  persisted ("ns1", "linode-machine")
    (patch.diff exLinodeMachine updated) (setOwner 4%positive updated exMarkedReady).

Lemma exMarkedReady_ok :
  scopeOk exMarkedReady exScope 4%positive
    {| patch.client := controlPlane; patch.before := exLinodeMachine |} exReadyMachine.
Proof. split; done. Defined.

Lemma exReadyFinalized_run :
  AddFinalizer exMachineFinalizer exScope exMarkedReady = Some (None, exReadyFinalized).
Proof. vm_compute. reflexivity. Defined.

Lemma AddFinalizer_frame_witness :
  scopeOk exMarkedReady exScope 4%positive
    {| patch.client := controlPlane; patch.before := exLinodeMachine |} exReadyMachine
  /\ AddFinalizer exMachineFinalizer exScope exMarkedReady = Some (None, exReadyFinalized)
  /\ hLinodeMachines (heap exReadyFinalized) !! 5%positive
     = hLinodeMachines (heap exMarkedReady) !! 5%positive
  /\ secrets (server exReadyFinalized) = secrets (server exMarkedReady)
  /\ linodeMachines (server exReadyFinalized) !! ("ns1", "overridden")
     = linodeMachines (server exMarkedReady) !! ("ns1", "overridden").
Proof.
  split; [exact exMarkedReady_ok|]. split; [exact exReadyFinalized_run|].
  destruct (AddFinalizer_frame exMachineFinalizer exScope exMarkedReady 4%positive _
              exReadyMachine None exReadyFinalized exMarkedReady_ok exReadyFinalized_run)
    as (_ & _ & _ & Hothers & Hsecrets & _ & Hstored & _).
  split; [apply Hothers; discriminate|].
  split; [exact Hsecrets|].
  apply Hstored. discriminate.
Defined.

(** There the stored copy of the owner takes the finalizer and the status
    change together. *)
Example AddFinalizer_persists_earlier_changes :
  linodeMachines (server exReadyFinalized) !! ("ns1", "linode-machine")
  = Some (withMachineFinalizer exMachineFinalizer exReadyMachine).
Proof. vm_compute. reflexivity. Qed.

(** The control plane has lost the LinodeMachine. *)
Definition exUnstored : World :=
  {| heap := exHeap;
     server := {| secrets := secrets exServer; linodeMachines := ∅ |};
     calls := [] |}.

Lemma exUnstored_ok :
  scopeOk exUnstored exScope 4%positive
    {| patch.client := controlPlane; patch.before := exLinodeMachine |} exLinodeMachine.
Proof. split; done. Defined.

Lemma AddFinalizer_failed_persist_witness :
  scopeOk exUnstored exScope 4%positive
    {| patch.client := controlPlane; patch.before := exLinodeMachine |} exLinodeMachine
  /\ (exMachineFinalizer ∉ infrav1alpha1.GetFinalizers exLinodeMachine)
  /\ linodeMachines (server exUnstored) !! ownerKey exLinodeMachine = None
  /\ exists e w1,
       AddFinalizer exMachineFinalizer exScope exUnstored = Some (Some e, w1)
       /\ server w1 = server exUnstored
       /\ hLinodeMachines (heap w1) !! 4%positive
          = Some (withMachineFinalizer exMachineFinalizer exLinodeMachine)
       /\ writes w1 = S (writes exUnstored)
       /\ AddFinalizer exMachineFinalizer exScope w1 = Some (None, w1).
Proof.
  split; [exact exUnstored_ok|]. split; [exact exMachineFinalizer_absent|].
  split; [reflexivity|].
  exact (AddFinalizer_failed_persist exMachineFinalizer exScope exUnstored 4%positive _
           exLinodeMachine exUnstored_ok
           exMachineFinalizer_absent exMachineFinalizer_absent eq_refl).
Defined.

Lemma GetBootstrapData_refetches_witness :
  pointee hMachines exBuilt (Scope.Machine exScope) = Some exMachine
  /\ pointee hLinodeMachines exBuilt (Scope.LinodeMachine exScope) = Some exLinodeMachine
  /\ exists r w1 w2,
       GetBootstrapData exScope exBuilt = Some (r, w1)
       /\ GetBootstrapData exScope w1 = Some (r, w2)
       /\ heap w2 = heap exBuilt /\ server w2 = server exBuilt
       /\ forall name,
            clusterv1.DataSecretName (clusterv1.Bootstrap_ (clusterv1.Spec exMachine))
            = Some name ->
            calls w2
            = (calls exBuilt
               ++ [GetSecret (infrav1alpha1.GetNamespace exLinodeMachine, name);
                   GetSecret (infrav1alpha1.GetNamespace exLinodeMachine, name)])%list.
Proof.
  split; [exact exScope_machine|]. split; [exact exScope_owner|].
  exact (GetBootstrapData_refetches exScope exBuilt exMachine exLinodeMachine
           exScope_machine exScope_owner).
Defined.

Lemma exBootstrap_run :
  GetBootstrapData exScope exBuilt
  = Some ((Slice [x23; x21], None), addCalls [GetSecret ("ns1", "bootstrap")] exBuilt).
Proof. vm_compute. reflexivity. Defined.

Lemma GetBootstrapData_succeeds_iff_witness :
  pointee hMachines exBuilt (Scope.Machine exScope) = Some exMachine
  /\ pointee hLinodeMachines exBuilt (Scope.LinodeMachine exScope) = Some exLinodeMachine
  /\ exists name secret,
       clusterv1.DataSecretName (clusterv1.Bootstrap_ (clusterv1.Spec exMachine)) = Some name
       /\ secrets (server exBuilt) !! (infrav1alpha1.GetNamespace exLinodeMachine, name)
          = Some secret
       /\ corev1.Data secret !! "value" = Some (Slice [x23; x21]).
Proof.
  split; [exact exScope_machine|]. split; [exact exScope_owner|].
  exact (proj1 (GetBootstrapData_succeeds_iff exScope exBuilt exMachine exLinodeMachine
                  (Slice [x23; x21], None) _
                  exScope_machine exScope_owner exBootstrap_run)
               eq_refl).
Defined.

(** Construction for the machine with an override of its own. *)
Definition exParamsOverridden : Params.MachineScopeParams :=
  {| Params.Client := controlPlane;
     Params.Cluster := Some 1%positive;
     Params.Machine := Some 2%positive;
     Params.LinodeCluster := Some 3%positive;
     Params.LinodeMachine := Some 5%positive |}.

Lemma exParamsOverridden_ok :
  paramsOk exWorld exParamsOverridden exOverridden exLinodeCluster.
Proof. split; [by eexists | by eexists | done | done]. Defined.

Lemma credentials_finalizer_on_the_secret_in_use_witness :
  paramsOk exWorld exParamsOverridden exOverridden exLinodeCluster
  /\ infrav1alpha1.CredentialsRef (infrav1alpha1.Spec exOverridden) = Some exCredentials
  /\ Scope.LinodeMachine exScopeOverridden = Params.LinodeMachine exParamsOverridden
  /\ exists r w1 e2 w2,
       NewMachineScope exTimeout exValidToken "controller-key" "controller-dns"
         exParamsOverridden exWorld = Some (r, w1)
       /\ AddCredentialsRefFinalizer exFinalizerFormat exScopeOverridden exWorld
          = Some (e2, w2)
       /\ (exists cs, calls w1 = (calls exWorld ++ cs)%list
                      /\ Forall (eq ("ns1", "creds")) (secretKeys cs))
       /\ (exists cs, calls w2 = (calls exWorld ++ cs)%list
                      /\ Forall (eq ("ns1", "creds")) (secretKeys cs)).
Proof.
  split; [exact exParamsOverridden_ok|]. do 2 (split; [reflexivity|]).
  destruct (credentials_finalizer_on_the_secret_in_use exTimeout exValidToken
              exFinalizerFormat "controller-key" "controller-dns" exParamsOverridden
              exWorld exOverridden exLinodeCluster exCredentials exScopeOverridden
              exParamsOverridden_ok eq_refl eq_refl)
    as (r & w1 & e2 & w2 & e3 & w3 & Hnew & (cs1 & Hcs1 & _ & Hk1)
        & Hadd & (cs2 & Hcs2 & _ & Hk2) & _).
  exists r, w1, e2, w2.
  split; [exact Hnew|]. split; [exact Hadd|].
  split; [exists cs1; split; [exact Hcs1 | exact Hk1]
         |exists cs2; split; [exact Hcs2 | exact Hk2]].
Defined.

Definition exProtected : World :=
  (secretUpdate ("ns1", "creds")
     (fun secret => controllerutil.AddFinalizerSecret secret "LinodeMachine/ns1.overridden")
     exWorld).2.

Lemma exProtected_run :
  AddCredentialsRefFinalizer exFinalizerFormat exScopeOverridden exWorld
  = Some (None, exProtected).
Proof. vm_compute. reflexivity. Defined.

Lemma CredentialsRefFinalizer_frame_witness :
  pointee hLinodeMachines exWorld (Scope.LinodeMachine exScopeOverridden) = Some exOverridden
  /\ AddCredentialsRefFinalizer exFinalizerFormat exScopeOverridden exWorld
     = Some (None, exProtected)
  /\ heap exProtected = heap exWorld
  /\ linodeMachines (server exProtected) = linodeMachines (server exWorld).
Proof.
  split; [exact exScopeOverridden_ok|]. split; [exact exProtected_run|].
  destruct (CredentialsRefFinalizer_frame exFinalizerFormat exScopeOverridden exWorld
              exOverridden None exProtected exScopeOverridden_ok
              (or_introl exProtected_run))
    as (Hheap & Hstored & _).
  split; [exact Hheap | exact Hstored].
Defined.

Lemma exSecret_unprotected :
  toFinalizer exFinalizerFormat exOverridden
  ∉ metav1.Finalizers (corev1.ObjectMeta exSecret).
Proof. apply not_elem_of_nil. Defined.

Lemma CredentialsRefFinalizer_add_then_remove_witness :
  pointee hLinodeMachines exWorld (Scope.LinodeMachine exScopeOverridden) = Some exOverridden
  /\ infrav1alpha1.CredentialsRef (infrav1alpha1.Spec exOverridden) = Some exCredentials
  /\ secrets (server exWorld)
     !! secretKey exCredentials (infrav1alpha1.GetNamespace exOverridden) = Some exSecret
  /\ exists w1 w2,
       AddCredentialsRefFinalizer exFinalizerFormat exScopeOverridden exWorld
       = Some (None, w1)
       /\ RemoveCredentialsRefFinalizer exFinalizerFormat exScopeOverridden w1
          = Some (None, w2)
       /\ server w2 = server exWorld /\ heap w2 = heap exWorld.
Proof.
  split; [exact exScopeOverridden_ok|]. do 2 (split; [reflexivity|]).
  destruct (CredentialsRefFinalizer_add_then_remove exFinalizerFormat exScopeOverridden
              exWorld exOverridden exCredentials exSecret
              exScopeOverridden_ok eq_refl eq_refl exSecret_unprotected)
    as (w1 & w2 & Hadd & _ & Hrm & Hserver & Hheap).
  exists w1, w2. split; [exact Hadd|]. split; [exact Hrm|].
  split; [exact Hserver | exact Hheap].
Defined.

Lemma NewMachineScope_scope_fields_witness :
  paramsAllocated exWorld exParams
  /\ Scope.LinodeMachine exScope = Params.LinodeMachine exParams
  /\ exists primary secondary,
       Scope.LinodeClient exScope
       = Some {| clients.token := primary;
                 clients.timeout := exTimeout;
                 clients.options := [clients.WithRetryCount 0] |}
       /\ Scope.LinodeDomainsClient exScope
          = Some {| clients.token := secondary;
                    clients.timeout := exTimeout;
                    clients.options := [clients.WithRetryCount 0] |}
       /\ exValidToken primary = true /\ exValidToken secondary = true.
Proof.
  split; [exact exParams_allocated|].
  destruct (NewMachineScope_scope_fields exTimeout exValidToken
              "controller-key" "controller-dns" exParams exWorld exScope exBuilt
              exParams_allocated exBuilt_run)
    as (_ & _ & _ & _ & (Howner & _) & _ & Hclients).
  split; [exact Howner | exact Hclients].
Defined.

(** A credentials secret with an empty "apiToken" and a usable "dnsToken". *)
Definition exEmptyToken : corev1.Secret :=
  {| corev1.ObjectMeta := exMeta "ns1" "creds";
     corev1.Data := {[ "apiToken" := Slice []; "dnsToken" := abc ]} |}.

Definition exEmptyTokenWorld : World :=
  {| heap := exHeap;
     server := {| secrets := {[ ("ns1", "creds") := exEmptyToken ]};
                  linodeMachines := linodeMachines exServer |};
     calls := [] |}.

Lemma exEmptyTokenWorld_ok :
  paramsOk exEmptyTokenWorld exParams exLinodeMachine exLinodeCluster.
Proof. split; [by eexists | by eexists | done | done]. Defined.

Lemma NewMachineScope_unusable_apiToken_witness :
  paramsOk exEmptyTokenWorld exParams exLinodeMachine exLinodeCluster
  /\ selectedOverride exLinodeMachine exLinodeCluster = Some (exCredentials, "ns1")
  /\ secrets (server exEmptyTokenWorld) !! secretKey exCredentials "ns1" = Some exEmptyToken
  /\ corev1.Data exEmptyToken !! "apiToken" = Some (Slice [])
  /\ exValidToken (string_of (Slice [])) = false
  /\ exists e,
       NewMachineScope exTimeout exValidToken "controller-key" "controller-dns"
         exParams exEmptyTokenWorld
       = Some ((None, Some (wrapf "failed to create linode client" e)),
               addCalls [GetSecret ("ns1", "creds"); GetSecret ("ns1", "creds");
                         NewLinodeClient ""] exEmptyTokenWorld).
Proof.
  split; [exact exEmptyTokenWorld_ok|]. do 4 (split; [reflexivity|]).
  exact (NewMachineScope_unusable_apiToken exTimeout exValidToken
           "controller-key" "controller-dns" exParams exEmptyTokenWorld
           exLinodeMachine exLinodeCluster exCredentials "ns1" exEmptyToken (Slice [])
           exEmptyTokenWorld_ok eq_refl eq_refl eq_refl eq_refl).
Defined.
